(** * Survey data processor: validation, aggregation and run artifacts

    A shallow embedding of [notebooks/survey_data_processor.ipynb] of
    RAG_Survey_Analysis_Europa, together with the dictionary mapper the
    notebook imports from [shared.transformations].

    Layout: the tabular data model, the column validator, the LTR/driver
    projection, the mapper, the per-survey loop written in a small
    state-and-exception monad, the output cell as a trace of file-system
    operations that may end in an exception, and then the properties. *)

From Stdlib Require Import ZArith Ascii String.
From stdpp Require Import gmap strings list fin_maps.

Open Scope Z_scope.

(** ** Exceptions *)

(** A call either raises, carrying [str(e)], or returns. *)
Definition Exc (A : Type) : Type := (string + A)%type.

Definition raise {A} (msg : string) : Exc A := inl msg.

Definition exc_bind {A B} (m : Exc A) (k : A → Exc B) : Exc B :=
  match m with
  | inl e => inl e
  | inr a => k a
  end.

(** ** Tabular data *)

(** A cell of a pandas frame: the missing marker, a text response, a number,
    a boolean (summary flags) or a [datetime] reading. *)
Inductive Cell : Type :=
  | NaN
  | Text (s : string)
  | Num (n : Z)
  | Flag (b : bool)
  | Stamp (t : Z).

#[global] Instance Cell_eq_dec : EqDecision Cell.
Proof. solve_decision. Defined.

(** A frame is a row count and a list of labelled columns, in order.  Two
    columns may carry the same label, as in the result of a query that
    selects a name twice. *)
Record DataFrame : Type := mkDataFrame {
  nrows : nat;
  cols : list (string * list Cell)
}.

#[global] Instance DataFrame_eq_dec : EqDecision DataFrame.
Proof. solve_decision. Defined.

(** [df.columns] *)
Definition columns (df : DataFrame) : list string := (cols df).*1.

(** [len(df)] *)
Definition len (df : DataFrame) : nat := nrows df.

(** [df[c] = v]: a scalar is broadcast to every row of every column that
    carries the label; the label is appended when the frame does not have it
    yet. *)
Definition set_column (c : string) (v : Cell) (df : DataFrame) : DataFrame :=
  {| nrows := nrows df;
     cols := if bool_decide (c ∈ columns df)
             then (λ lc : string * list Cell,
                     if bool_decide (lc.1 = c)
                     then (lc.1, replicate (nrows df) v) else lc) <$> cols df
             else cols df ++ [(c, replicate (nrows df) v)] |}.

(** [list(set(l))]: Python leaves the order open; [elements] fixes one. *)
Definition list_of_set (s : gset string) : list string := elements s.

(** [df[labels]] for labels the frame has: label by label, every column that
    carries the label, with its values as they are. *)
Definition select_columns (labels : list string) (df : DataFrame) : DataFrame :=
  {| nrows := nrows df;
     cols := labels ≫= λ c, filter (λ lc, lc.1 = c) (cols df) |}.

(** The labels of several frames in order of first appearance. *)
Definition add_labels (acc new : list string) : list string :=
  acc ++ filter (λ c, c ∉ acc) new.

Definition has_repeated (labels : list string) : bool :=
  bool_decide (¬ NoDup labels).

(** The values a frame has under a label: those of its first column with
    that label, none if it has no such column. *)
Definition column_by_label (df : DataFrame) (l : string) : list Cell :=
  from_option snd [] (List.find (λ lc, bool_decide (lc.1 = l)) (cols df)).

(** What a frame contributes to column [j], labelled [l], of a combined frame
    with labels [L]: its own column [j] when its labels are [L], else its
    column labelled [l]; the missing marker fills what it lacks. *)
Definition aligned_column (L : list string) (df : DataFrame) (j : nat)
    (l : string) : list Cell :=
  resize (nrows df) NaN
    (if bool_decide (columns df = L)
     then from_option snd [] (cols df !! j)
     else column_by_label df l).

(** [pd.concat(frames, ignore_index=True, sort=False)]: the frames' rows in
    the order of the frames.  Frames with one and the same labels keep them;
    otherwise the labels are united in order of first appearance and every
    frame is reindexed to them, which pandas refuses for a frame with a
    repeated label. *)
Definition concat (frames : list DataFrame) : Exc DataFrame :=
  match frames with
  | [] => raise "No objects to concatenate"
  | first :: rest =>
      let same :=
        forallb (λ df, bool_decide (columns df = columns first)) rest in
      if negb same && existsb (λ df, has_repeated (columns df)) frames
      then raise "Reindexing only valid with uniquely valued Index objects"
      else
        let L := if same then columns first
                 else foldl add_labels [] (columns <$> frames) in
        inr {| nrows := sum_list (nrows <$> frames);
               cols := imap (λ j l,
                         (l, mjoin ((λ df, aligned_column L df j l)
                                      <$> frames))) L |}
  end.

(** [df[c]] read for its value: a [KeyError] when no column carries the
    label. *)
Definition require_column (c : string) (df : DataFrame) : Exc unit :=
  if bool_decide (c ∈ columns df) then inr tt
  else raise ("'" +:+ c +:+ "'").

(** ** Column validation (notebook cell "Data Loading Functions") *)

Definition auto_added_columns : gset string :=
  {[ "Survey_Name"; "Processed_Date" ]}.

Definition validate_columns (df : DataFrame) (survey_name : string)
    (all_columns_dict : gmap string string) : bool * gset string :=
  let df_columns := list_to_set (columns df) ∖ auto_added_columns in
  let allowed_columns := dom all_columns_dict in
  let invalid_columns := df_columns ∖ allowed_columns in
  if bool_decide (invalid_columns ≠ ∅)
  then (false, invalid_columns)
  else (true, ∅).

(** ** LTR and driver extraction *)

(** [[col for col, col_type in d.items() if col_type == t and col in df.columns]];
    Python lists the items in insertion order, and the caller uses only the
    length of the result and its elements as a set. *)
Definition columns_of_type (t : string) (all_columns_dict : gmap string string)
    (df : DataFrame) : list string :=
  (map_to_list
     (filter (λ kv, kv.2 = t ∧ kv.1 ∈ columns df) all_columns_dict)).*1.

Definition extract_ltr_and_drivers (df : DataFrame) (survey_name : string)
    (all_columns_dict : gmap string string) : option DataFrame :=
  let ltr_columns := columns_of_type "LTR" all_columns_dict df in
  let driver_columns := columns_of_type "DRIVERS" all_columns_dict df in
  let standard_columns := columns_of_type "STANDARD" all_columns_dict df in
  let auto_added := ["Survey_Name"; "Processed_Date"] in
  let available_auto_added :=
    filter (λ col, col ∈ columns df) auto_added in
  let relevant_columns :=
    list_of_set (list_to_set (standard_columns ++ ltr_columns ++
                              driver_columns ++ available_auto_added)) in
  if bool_decide (0 < length ltr_columns ∨ 0 < length driver_columns)%nat
  then Some (select_columns relevant_columns df)
  else None.

(** ** Python strings and paths *)

(** A [string] holds the UTF-8 bytes of a Python [str]. *)
Definition char (bytes : list nat) : string :=
  string_of_list_ascii (ascii_of_nat <$> bytes).

(** The characters [str.strip()] removes: U+0009 to U+000D, U+001C to
    U+0020, U+0085, U+00A0, U+1680, U+2000 to U+200A, U+2028, U+2029,
    U+202F, U+205F and U+3000. *)
Definition whitespace : list string :=
  ((λ b, char [b]) <$> [9; 10; 11; 12; 13; 28; 29; 30; 31; 32]%nat)
  ++ [char [194; 133]%nat; char [194; 160]%nat; char [225; 154; 128]%nat]
  ++ ((λ b, char [226; 128; b]%nat)
        <$> [128; 129; 130; 131; 132; 133; 134; 135; 136; 137; 138;
             168; 169; 175]%nat)
  ++ [char [226; 129; 159]%nat; char [227; 128; 128]%nat].

(** Drop the leading characters that are in [ws], whose members take one to
    three bytes. *)
Fixpoint lstrip_of (ws : list string) (s : string) : string :=
  match s with
  | EmptyString => EmptyString
  | String a s1 =>
      if bool_decide (String a EmptyString ∈ ws) then lstrip_of ws s1
      else
        match s1 with
        | EmptyString => s
        | String b s2 =>
            if bool_decide (String a (String b EmptyString) ∈ ws)
            then lstrip_of ws s2
            else
              match s2 with
              | EmptyString => s
              | String c s3 =>
                  if bool_decide
                       (String a (String b (String c EmptyString)) ∈ ws)
                  then lstrip_of ws s3
                  else s
              end
        end
  end.

Definition lstrip (s : string) : string := lstrip_of whitespace s.

Definition rstrip (s : string) : string :=
  String.rev (lstrip_of (String.rev <$> whitespace) (String.rev s)).

(** [str.strip()] *)
Definition strip (s : string) : string := rstrip (lstrip s).

(** [str.lower()] on the letters A to Z; the other bytes stay. *)
Definition lower_ascii (a : ascii) : ascii :=
  let n := nat_of_ascii a in
  if ((65 <=? n) && (n <=? 90))%nat then ascii_of_nat (n + 32) else a.

Fixpoint lower (s : string) : string :=
  match s with
  | String a s' => String (lower_ascii a) (lower s')
  | EmptyString => EmptyString
  end.

Definition startswith_sep (s : string) : bool :=
  match s with
  | String "/" _ => true
  | _ => false
  end.

Definition endswith_sep (s : string) : bool := startswith_sep (String.rev s).

(** [os.path.join] on POSIX, one component at a time. *)
Definition path_join2 (path b : string) : string :=
  if startswith_sep b then b
  else if bool_decide (path = EmptyString) || endswith_sep path then path +:+ b
  else path +:+ "/" +:+ b.

Definition os_path_join (a : string) (p : list string) : string :=
  foldl path_join2 a p.

(** ** The dictionary mapper *)

Module SimpleSurveyMapper.

(** Modelled from the spec: the mapper's key normalisation is not in the
    sources at hand; "input text is trimmed of leading/trailing whitespace
    and case-folded before lookup".  Trimming is [str.strip()]; case-folding
    is taken on the letters A to Z, where it is lower-casing. *)
Definition normalize (s : string) : string := lower (strip s).

(** Modelled from the spec: the dictionary lookup of the absent mapper;
    a dictionary is an ordered label-to-number table, "defined once with
    canonical-case keys but matched case-insensitively", the value being
    "looked up in the target MappingDictionary using the same
    normalization". *)
Definition lookup_label (d : list (string * Z)) (s : string) : option Z :=
  snd <$> List.find (λ kv, bool_decide (normalize kv.1 = normalize s)) d.

(** Modelled from the spec: per-value rule of the absent
    [transform_survey]; a missing value stays, a text value is replaced on
    a hit and kept on a miss, and "already-numeric values never match a
    textual dictionary key". *)
Definition transform_value (d : list (string * Z)) (v : Cell) : Cell :=
  match v with
  | NaN => NaN
  | Text s =>
      match lookup_label d s with
      | Some n => Num n
      | None => Text s
      end
  | Num n => Num n
  | Flag b => Flag b
  | Stamp t => Stamp t
  end.

(** [config/mapping_dictionaries.json] and
    [config/survey_column_mappings.json] as loaded. *)
Record t : Type := mk {
  mappings : gmap string (list (string * Z));
  survey_columns : gmap string (gmap string string);
  default_mappings : gmap string string
}.

(** Modelled from the spec: [get_explicit_mappings] (the notebook calls it
    [get_survey_mappings]) of the absent mapper; the mapping configured
    for that survey, "empty mapping if none configured". *)
Definition get_survey_mappings (m : t) (survey_name : string)
    : gmap string string :=
  default ∅ (survey_columns m !! survey_name).

(** Modelled from the spec: [get_effective_mappings] of the absent mapper;
    explicit mappings merged with the default rules whose column is
    present, not explicitly configured, and only when defaults are on. *)
Definition get_effective_mappings (m : t) (survey_name : string)
    (present_columns : list string) (include_defaults : bool)
    : gmap string string :=
  let explicit := get_survey_mappings m survey_name in
  map_fold
    (λ col dict_name acc,
       if include_defaults
          && bool_decide (col ∈ present_columns)
          && bool_decide (acc !! col = None)
       then <[col := dict_name]> acc
       else acc)
    explicit (default_mappings m).

(** Modelled from the spec: the dictionaries the absent [transform_survey]
    applies, by column: the one the effective mapping names for a column the
    dataset has, looked up in the store. *)
Definition dictionaries (m : t) (df : DataFrame) (survey_name : string)
    (include_defaults : bool) : gmap string (list (string * Z)) :=
  omap (λ name, mappings m !! name)
    (filter (λ kv : string * string, kv.1 ∈ columns df)
       (get_effective_mappings m survey_name (columns df) include_defaults)).

(** Modelled from the spec: [transform_survey] of the absent mapper; every
    column of the effective mapping that the dataset has gets the
    per-value rule of its dictionary; the columns and the rows stay.  A rule
    that names a dictionary the store does not have fails the way the
    store's lookup is specified to fail, with the configuration error
    "unknown dictionary". *)
Definition transform_survey (m : t) (df : DataFrame) (survey_name : string)
    (include_defaults : bool) : Exc DataFrame :=
  let effective : gmap string string :=
    filter (λ kv, kv.1 ∈ columns df)
      (get_effective_mappings m survey_name (columns df) include_defaults) in
  if bool_decide (map_Forall (λ _ name, is_Some (mappings m !! name)) effective)
  then
    let dicts := dictionaries m df survey_name include_defaults in
    inr {| nrows := nrows df;
           cols := (λ lc : string * list Cell,
                      (lc.1, match dicts !! lc.1 with
                             | Some d => transform_value d <$> lc.2
                             | None => lc.2
                             end)) <$> cols df |}
  else raise "unknown dictionary".

(** Modelled from the spec: [validate_survey_config] of the absent mapper;
    [missing] are configured columns the dataset lacks, [extra] are
    dataset columns no explicit or default rule covers. *)
Definition validate_survey_config (m : t) (survey_name : string)
    (df : DataFrame) : gset string * gset string :=
  let explicit := get_survey_mappings m survey_name in
  (dom explicit ∖ list_to_set (columns df),
   list_to_set (columns df) ∖ (dom explicit ∪ dom (default_mappings m))).

(** Three of the shipped dictionaries, as the mapping guide and the
    notebook's configuration cell list them. *)
Definition satisfaction_5_scale : list (string * Z) :=
  [("very dissatisfied", 1); ("dissatisfied", 2); ("neutral", 3);
   ("satisfied", 4); ("very satisfied", 5)]%string.

Definition yes_no_binary : list (string * Z) :=
  [("yes", 1); ("no", 0)]%string.

Definition recommendation_10_scale : list (string * Z) :=
  [("0", 0); ("1", 1); ("2", 2); ("3", 3); ("4", 4); ("5", 5);
   ("6", 6); ("7", 7); ("8", 8); ("9", 9); ("10", 10)]%string.

End SimpleSurveyMapper.

(** ** The mapper as the loop sees it *)

(** The three methods the loop calls on [mapper]; each may raise. *)
Record Mapper : Type := mkMapper {
  get_survey_mappings : string → Exc (gmap string string);
  transform_survey : DataFrame → string → Exc DataFrame;
  validate_survey_config : string → DataFrame → Exc (gset string * gset string)
}.

(** [SimpleSurveyMapper()] behind that interface; [include_defaults] takes
    its default [True]. *)
Definition simple_mapper (m : SimpleSurveyMapper.t) : Mapper :=
  {| get_survey_mappings := λ name,
       inr (SimpleSurveyMapper.get_survey_mappings m name);
     transform_survey := λ df name,
       SimpleSurveyMapper.transform_survey m df name true;
     validate_survey_config := λ name df,
       inr (SimpleSurveyMapper.validate_survey_config m name df) |}.

(** ** Run state *)

Record Summary : Type := mkSummary {
  Survey_Name : string;
  Records_Processed : nat;
  Columns_Count : nat;
  Columns_Transformed : nat;
  Has_LTR_Data : bool;
  Has_Driver_Data : bool;
  Processing_Status : string;
  Processed_Time : Z
}.

(** The three lists the cell "Initialize storage" creates. *)
Record PipelineState : Type := mkState {
  all_survey_data : list DataFrame;
  nps_driver_data : list DataFrame;
  processing_summary : list Summary
}.

Definition initial_state : PipelineState :=
  {| all_survey_data := []; nps_driver_data := []; processing_summary := [] |}.

(** A statement of the loop body: it may raise, and what it appended before
    raising stays appended. *)
Definition M (A : Type) : Type := PipelineState → Exc A * PipelineState.

Definition ret {A} (a : A) : M A := λ st, (inr a, st).

Definition bind {A B} (m : M A) (k : A → M B) : M B :=
  λ st, match m st with
        | (inl e, st') => (inl e, st')
        | (inr a, st') => k a st'
        end.

Definition call {A} (r : Exc A) : M A := λ st, (r, st).

(** [try: body except Exception as e: handler(str(e))] *)
Definition try_except (body : M unit) (handler : string → M unit) : M unit :=
  λ st, match body st with
        | (inl e, st') => handler e st'
        | (inr tt, st') => (inr tt, st')
        end.

Declare Scope pipeline_scope.
Delimit Scope pipeline_scope with pipeline.
Notation "'let*' x ':=' m 'in' k" := (bind m (λ x, k))
  (at level 10, x name, m at level 200, k at level 200) : pipeline_scope.
Notation "m ;;; k" := (bind m (λ _, k))
  (at level 100, right associativity) : pipeline_scope.

Definition append_all (df : DataFrame) : M unit :=
  λ st, (inr tt, {| all_survey_data := all_survey_data st ++ [df];
                    nps_driver_data := nps_driver_data st;
                    processing_summary := processing_summary st |}).

Definition append_nps (df : DataFrame) : M unit :=
  λ st, (inr tt, {| all_survey_data := all_survey_data st;
                    nps_driver_data := nps_driver_data st ++ [df];
                    processing_summary := processing_summary st |}).

Definition append_summary (row : Summary) : M unit :=
  λ st, (inr tt, {| all_survey_data := all_survey_data st;
                    nps_driver_data := nps_driver_data st;
                    processing_summary := processing_summary st ++ [row] |}).

(** ** The notebook's loading functions and per-survey loop *)

Section Pipeline.

(** The taxonomy [ALL_COLUMNS] comes in through a star import. *)
Variable ALL_COLUMNS : gmap string string.
(** The text files under [SQL_QUERIES_DIR], by path. *)
Variable files : gmap string string.
(** [pd.read_sql_query(query, conn)]: the rows of a query, or an error. *)
Variable read_sql_query : string → Exc DataFrame.
Variable mapper : Mapper.
(** The reading of [datetime.now()]; one reading stands for all of them. *)
Variable now : Z.
(** Whether the cell that defines [extract_ltr_and_drivers] has run when
    the loop cell runs; the notebook places it after the loop cell. *)
Variable extract_defined : bool.

Definition SQL_QUERIES_DIR : string := "../sql_queries/".

Definition load_sql_query (survey_name : string) : Exc string :=
  let sql_file_path :=
    os_path_join SQL_QUERIES_DIR [survey_name; "get_data.sql"] in
  match files !! sql_file_path with
  | None => raise ("SQL file not found: " +:+ sql_file_path)
  | Some text => inr (strip text)
  end.

Definition execute_query_and_load_data (survey_name : string)
    : Exc (option DataFrame) :=
  exc_bind (load_sql_query survey_name) (λ query,
    match read_sql_query query with
    | inr df =>
        let '(is_valid, invalid_cols) :=
          validate_columns df survey_name ALL_COLUMNS in
        if negb is_valid then inr None
        else inr (Some (set_column "Survey_Name" (Text survey_name) df))
    | inl e => inr None
    end).

(** The global name is looked up when the call is made. *)
Definition call_extract_ltr_and_drivers (df : DataFrame)
    (survey_name : string) : Exc (option DataFrame) :=
  if extract_defined
  then inr (extract_ltr_and_drivers df survey_name ALL_COLUMNS)
  else raise "name 'extract_ltr_and_drivers' is not defined".

Definition has_type (t : string) (df : DataFrame) : bool :=
  existsb (λ col, bool_decide (ALL_COLUMNS !! col = Some t)) (columns df).

Definition empty_summary (survey_name status : string) : Summary :=
  {| Survey_Name := survey_name;
     Records_Processed := 0;
     Columns_Count := 0;
     Columns_Transformed := 0;
     Has_LTR_Data := false;
     Has_Driver_Data := false;
     Processing_Status := status;
     Processed_Time := now |}.

Open Scope pipeline_scope.

(** The body of [try:] in the cell "Process each survey". *)
Definition process_body (survey_name : string) : M unit :=
  let* df := call (execute_query_and_load_data survey_name) in
  match df with
  | Some df0 =>
      if (0 <? len df0)%nat then
        let df1 := set_column "Survey_Name" (Text survey_name) df0 in
        let df2 := set_column "Processed_Date" (Stamp now) df1 in
        let* survey_mappings :=
          call (get_survey_mappings mapper survey_name) in
        let* df3 :=
          (if bool_decide (survey_mappings ≠ ∅)
           then call (transform_survey mapper df2 survey_name)
           else ret df2) in
        let* validation :=
          call (validate_survey_config mapper survey_name df3) in
        append_all df3 ;;;
        let* ltr_driver_subset :=
          call (call_extract_ltr_and_drivers df3 survey_name) in
        match ltr_driver_subset with
        | Some sub => append_nps sub
        | None => ret tt
        end ;;;
        append_summary
          {| Survey_Name := survey_name;
             Records_Processed := len df3;
             Columns_Count := length (columns df3);
             Columns_Transformed := size survey_mappings;
             Has_LTR_Data := has_type "LTR" df3;
             Has_Driver_Data := has_type "DRIVERS" df3;
             Processing_Status := "Success";
             Processed_Time := now |}
      else append_summary (empty_summary survey_name "No Data")
  | None => append_summary (empty_summary survey_name "Failed to load")
  end.

(** One iteration: the [try] body under its [except Exception as e]. *)
Definition process_survey (survey_name : string) : M unit :=
  try_except (process_body survey_name)
    (λ e, append_summary (empty_summary survey_name ("Error: " +:+ e))).

(** [for survey_name in SURVEYS: ...]; an exception that left an iteration
    would end the loop. *)
Fixpoint process_surveys (SURVEYS : list string) : M unit :=
  match SURVEYS with
  | [] => ret tt
  | survey_name :: rest =>
      process_survey survey_name ;;; process_surveys rest
  end.

Close Scope pipeline_scope.

Definition run (SURVEYS : list string) : Exc unit * PipelineState :=
  process_surveys SURVEYS initial_state.

End Pipeline.

(** ** Output generation *)

(** What the output cell asks of the file system.  [os.replace] and
    [shutil.copy] are listed to be able to say when a file is put in place by
    one of them and when by a direct write. *)
Inductive FsOp : Type :=
  | Makedirs (path : string)
  | ToCsv (path : string) (df : DataFrame)
  | Rename (src dst : string)
  | Copy (src dst : string).

(** Files by path; directories carry no content. *)
Definition apply_op (fs : gmap string DataFrame) (op : FsOp)
    : gmap string DataFrame :=
  match op with
  | Makedirs _ => fs
  | ToCsv path df => <[path := df]> fs
  | Rename src dst =>
      match fs !! src with
      | Some df => <[dst := df]> (delete src fs)
      | None => fs
      end
  | Copy src dst =>
      match fs !! src with
      | Some df => <[dst := df]> fs
      | None => fs
      end
  end.

Definition apply_ops (fs : gmap string DataFrame) (ops : list FsOp)
    : gmap string DataFrame :=
  foldl apply_op fs ops.

(** [pd.DataFrame(processing_summary)]: one column per key of the rows; no
    column at all when there is no row. *)
Definition summary_frame (l : list Summary) : DataFrame :=
  {| nrows := length l;
     cols :=
       match l with
       | [] => []
       | _ =>
           [("Survey_Name", (λ r, Text (Survey_Name r)) <$> l);
            ("Records_Processed",
             (λ r, Num (Z.of_nat (Records_Processed r))) <$> l);
            ("Columns_Count", (λ r, Num (Z.of_nat (Columns_Count r))) <$> l);
            ("Columns_Transformed",
             (λ r, Num (Z.of_nat (Columns_Transformed r))) <$> l);
            ("Has_LTR_Data", (λ r, Flag (Has_LTR_Data r)) <$> l);
            ("Has_Driver_Data", (λ r, Flag (Has_Driver_Data r)) <$> l);
            ("Processing_Status", (λ r, Text (Processing_Status r)) <$> l);
            ("Processed_Time", (λ r, Stamp (Processed_Time r)) <$> l)]
       end |}.

Definition RAG_OUTPUT_DIR : string := "../rag_outputs/current/".
Definition ARCHIVE_DIR : string := "../rag_outputs/archive/".
Definition OLD_OUTPUT_DIR : string := "../data/processed/".

Definition archive_path (stem TIMESTAMP : string) : string :=
  os_path_join ARCHIVE_DIR [stem +:+ TIMESTAMP +:+ ".csv"].

Definition current_path (name : string) : string :=
  os_path_join RAG_OUTPUT_DIR [name].

(** A stretch of a cell: whether it raises, and the file operations it makes
    before it does.  Failures of the file system itself are not modelled. *)
Definition Stretch : Type := (Exc unit * list FsOp)%type.

Definition performs (ops : list FsOp) : Stretch := (inr tt, ops).

Definition evaluates (r : Exc unit) : Stretch := (r, []).

(** Stretches one after the other, up to the first that raises. *)
Fixpoint in_sequence (l : list Stretch) : Stretch :=
  match l with
  | [] => (inr tt, [])
  | (inl e, ops) :: _ => (inl e, ops)
  | (inr _, ops) :: rest =>
      let r := in_sequence rest in (r.1, ops ++ r.2)
  end.

(** One of the two [if frames: ...] blocks of the output cell: the frames are
    combined, written to the archive and to the current location, and the
    closing message reads the combined frame's [Survey_Name]. *)
Definition write_combined (stem name TIMESTAMP : string)
    (frames : list DataFrame) : Stretch :=
  match frames with
  | [] => performs []
  | _ =>
      match concat frames with
      | inl e => evaluates (inl e)
      | inr combined =>
          in_sequence
            [performs [ToCsv (archive_path stem TIMESTAMP) combined;
                       ToCsv (current_path name) combined];
             evaluates (require_column "Survey_Name" combined)]
      end
  end.

(** The output cell; [TIMESTAMP] was fixed in the configuration cell.  The
    closing message of the summary block reads the summary frame's
    [Processing_Status]. *)
Definition generate_outputs (TIMESTAMP : string) (st : PipelineState)
    : Stretch :=
  let summary_df := summary_frame (processing_summary st) in
  in_sequence
    [performs [Makedirs RAG_OUTPUT_DIR; Makedirs ARCHIVE_DIR];
     write_combined "Combined_LTR_Drivers_" "combined_ltr_drivers.csv"
       TIMESTAMP (nps_driver_data st);
     write_combined "Combined_All_Surveys_" "combined_all_surveys.csv"
       TIMESTAMP (all_survey_data st);
     performs [ToCsv (archive_path "Processing_Summary_" TIMESTAMP) summary_df;
               ToCsv (current_path "processing_summary.csv") summary_df];
     evaluates (require_column "Processing_Status" summary_df);
     performs [Makedirs OLD_OUTPUT_DIR]].

(** ** Small concrete configurations *)

Module Demo.

Definition taxonomy : gmap string string :=
  list_to_map
    [("ResponseID", "STANDARD"); ("Timestamp", "STANDARD");
     ("NPS_Score", "LTR"); ("Satisfaction_Rating", "DRIVERS");
     ("Demographics_Age", "METADATA")].

Definition files : gmap string string :=
  list_to_map
    [("../sql_queries/survey_1/get_data.sql", "SELECT * FROM s1 ");
     ("../sql_queries/survey_2/get_data.sql", "SELECT * FROM s2");
     ("../sql_queries/survey_3/get_data.sql", "SELECT * FROM s3");
     ("../sql_queries/survey_5/get_data.sql",
      "SELECT ResponseID, ResponseID FROM s5")].

(** survey_1: two responses with an LTR column. *)
Definition s1 : DataFrame :=
  {| nrows := 2;
     cols := [("ResponseID", [Text "a"; Text "b"]);
              ("NPS_Score", [Text "10"; Text " 7 "])] |}.

(** survey_2: one response with a column outside the taxonomy. *)
Definition s2 : DataFrame :=
  {| nrows := 1;
     cols := [("ResponseID", [Text "c"]); ("Timestamp", [Text "t"]);
              ("Weird_Column", [Text "w"])] |}.

(** survey_3: one response with metadata only. *)
Definition s3 : DataFrame :=
  {| nrows := 1;
     cols := [("ResponseID", [Text "d"]);
              ("Demographics_Age", [Text "25-34"])] |}.

(** survey_5: one response of a query that selects a column twice. *)
Definition s5 : DataFrame :=
  {| nrows := 1;
     cols := [("ResponseID", [Text "h"]); ("ResponseID", [Text "h"])] |}.

Definition read_sql_query (query : string) : Exc DataFrame :=
  if bool_decide (query = "SELECT * FROM s1") then inr s1
  else if bool_decide (query = "SELECT * FROM s2") then inr s2
  else if bool_decide (query = "SELECT * FROM s3") then inr s3
  else if bool_decide (query = "SELECT ResponseID, ResponseID FROM s5")
  then inr s5
  else raise "no such table".

Definition config : SimpleSurveyMapper.t :=
  {| SimpleSurveyMapper.mappings :=
       list_to_map
         [("satisfaction_5_scale", SimpleSurveyMapper.satisfaction_5_scale);
          ("yes_no_binary", SimpleSurveyMapper.yes_no_binary);
          ("recommendation_10_scale",
           SimpleSurveyMapper.recommendation_10_scale)];
     SimpleSurveyMapper.survey_columns :=
       {[ "survey_1" := {[ "NPS_Score" := "recommendation_10_scale" ]};
          "survey_7" := {[ "NPS_Score" := "satisfaction_5_scale" ]} ]};
     SimpleSurveyMapper.default_mappings :=
       list_to_map
         [("NPS_Score", "recommendation_10_scale");
          ("Satisfaction_Rating", "satisfaction_5_scale");
          ("Yes_No_Question", "yes_no_binary")] |}.

Definition SURVEYS : list string :=
  ["survey_1"; "survey_2"; "survey_3"; "survey_4"].


End Demo.

(** ** Specification-side vocabulary *)

(** The dataset has a column the taxonomy types [LTR] or [DRIVERS]. *)
Definition has_ltr_or_drivers (all_columns_dict : gmap string string)
    (df : DataFrame) : Prop :=
  ∃ c, c ∈ columns df
       ∧ (all_columns_dict !! c = Some "LTR"
          ∨ all_columns_dict !! c = Some "DRIVERS").

(** A label typed [STANDARD], [LTR] or [DRIVERS], or a bookkeeping label. *)
Definition projected (all_columns_dict : gmap string string) (c : string)
    : Prop :=
  (all_columns_dict !! c = Some "STANDARD"
   ∨ all_columns_dict !! c = Some "LTR"
   ∨ all_columns_dict !! c = Some "DRIVERS")
  ∨ c ∈ auto_added_columns.

#[global] Instance projected_dec (all_columns_dict : gmap string string)
    (c : string) : Decision (projected all_columns_dict c).
Proof. unfold projected. apply _. Defined.

(** The present labels of that kind. *)
Definition projected_columns (all_columns_dict : gmap string string)
    (df : DataFrame) : gset string :=
  filter (projected all_columns_dict) (list_to_set (columns df)).

(** The four kinds of status a summary row carries, with the text the loop
    writes for each. *)
Inductive is_status : string → Prop :=
  | Success : is_status "Success"
  | NoData : is_status "No Data"
  | FailedToLoad : is_status "Failed to load"
  | Error (detail : string) : is_status ("Error: " +:+ detail).

(** What one state holds followed by what another holds. *)
Definition state_app (a b : PipelineState) : PipelineState :=
  {| all_survey_data := all_survey_data a ++ all_survey_data b;
     nps_driver_data := nps_driver_data a ++ nps_driver_data b;
     processing_summary := processing_summary a ++ processing_summary b |}.

Definition only_summary (row : Summary) : PipelineState :=
  {| all_survey_data := []; nps_driver_data := [];
     processing_summary := [row] |}.

(** The dataset of a survey that loaded and passed column validation. *)
Definition validated_dataset (ALL_COLUMNS files : gmap string string)
    (read_sql_query : string → Exc DataFrame) (survey_name : string)
    : option DataFrame :=
  match load_sql_query files survey_name with
  | inr query =>
      match read_sql_query query with
      | inr df =>
          if (validate_columns df survey_name ALL_COLUMNS).1
          then Some df else None
      | inl _ => None
      end
  | inl _ => None
  end.

Definition validated_rows (ALL_COLUMNS files : gmap string string)
    (read_sql_query : string → Exc DataFrame) (survey_name : string) : nat :=
  from_option len 0%nat
    (validated_dataset ALL_COLUMNS files read_sql_query survey_name).

(** A validated dataset with the bookkeeping columns as the loader and the
    loop set them. *)
Definition stamped (now : Z) (survey_name : string) (df : DataFrame)
    : DataFrame :=
  set_column "Processed_Date" (Stamp now)
    (set_column "Survey_Name" (Text survey_name)
       (set_column "Survey_Name" (Text survey_name) df)).

(** The frame a survey leaves in the full list: its validated dataset, if it
    has a row, stamped and, when the survey has configured mappings,
    transformed, provided none of the three mapper calls raises. *)
Definition stored_frame (ALL_COLUMNS files : gmap string string)
    (read_sql_query : string → Exc DataFrame) (mapper : Mapper) (now : Z)
    (survey_name : string) : option DataFrame :=
  match validated_dataset ALL_COLUMNS files read_sql_query survey_name with
  | Some df =>
      if (0 <? len df)%nat then
        match get_survey_mappings mapper survey_name with
        | inr survey_mappings =>
            match (if bool_decide (survey_mappings ≠ ∅)
                   then transform_survey mapper
                          (stamped now survey_name df) survey_name
                   else inr (stamped now survey_name df)) with
            | inr df3 =>
                match validate_survey_config mapper survey_name df3 with
                | inr _ => Some df3
                | inl _ => None
                end
            | inl _ => None
            end
        | inl _ => None
        end
      else None
  | None => None
  end.

(** The projection a survey leaves in the LTR/driver list when
    [extract_ltr_and_drivers] is defined. *)
Definition stored_projection (ALL_COLUMNS files : gmap string string)
    (read_sql_query : string → Exc DataFrame) (mapper : Mapper) (now : Z)
    (survey_name : string) : option DataFrame :=
  stored_frame ALL_COLUMNS files read_sql_query mapper now survey_name
  ≫= λ df3, extract_ltr_and_drivers df3 survey_name ALL_COLUMNS.

(** The rows of the frames before the [k]-th. *)
Definition rows_before (frames : list DataFrame) (k : nat) : nat :=
  sum_list (len <$> take k frames).

(** Every column of [df] is found, under its label, in a column of
    [combined], from row [offset] on and row for row. *)
Definition appears_at (offset : nat) (df combined : DataFrame) : Prop :=
  ∀ c values, (c, values) ∈ cols df →
    ∃ combined_values,
      (c, combined_values) ∈ cols combined
      ∧ take (len df) (drop offset combined_values)
        = resize (len df) NaN values.

(** [if all_survey_data: combined_all_data = pd.concat(...)] *)
Definition combined_all_data (st : PipelineState) : option (Exc DataFrame) :=
  match all_survey_data st with
  | [] => None
  | _ => Some (concat (all_survey_data st))
  end.

(** Every dictionary a survey rule or a default rule names is in the store. *)
Definition well_formed (m : SimpleSurveyMapper.t) : Prop :=
  map_Forall
    (λ _ (cm : gmap string string),
       map_Forall
         (λ _ name, is_Some (SimpleSurveyMapper.mappings m !! name)) cm)
    (SimpleSurveyMapper.survey_columns m)
  ∧ map_Forall
      (λ _ name, is_Some (SimpleSurveyMapper.mappings m !! name))
      (SimpleSurveyMapper.default_mappings m).

(** What [transform_survey] returns on a configuration that does not make it
    raise. *)
Definition returned_frame (m : SimpleSurveyMapper.t) (df : DataFrame)
    (survey_name : string) : DataFrame :=
  match SimpleSurveyMapper.transform_survey m df survey_name true with
  | inr df' => df'
  | inl _ => df
  end.

(** The file an operation writes, if any. *)
Definition target (op : FsOp) : option string :=
  match op with
  | Makedirs _ => None
  | ToCsv path _ => Some path
  | Rename _ dst => Some dst
  | Copy _ dst => Some dst
  end.


(** The two writes the output cell makes for a frame. *)
Definition written (stem name TIMESTAMP : string) (df : DataFrame)
    : list FsOp :=
  [ToCsv (archive_path stem TIMESTAMP) df; ToCsv (current_path name) df].

(** What one of the two [if frames: ...] blocks writes, and how it ends. *)
Definition combined_writes (stem name TIMESTAMP : string)
    (frames : list DataFrame) : list FsOp :=
  match frames with
  | [] => []
  | _ =>
      match concat frames with
      | inr combined => written stem name TIMESTAMP combined
      | inl _ => []
      end
  end.

Definition combined_result (frames : list DataFrame) : Exc unit :=
  match frames with
  | [] => inr tt
  | _ => exc_bind (concat frames) (require_column "Survey_Name")
  end.


(** A text made of characters that [str.strip()] removes. *)
Definition spaces (s : string) : Prop :=
  ∃ l, Forall (λ w, w ∈ whitespace) l
       ∧ s = foldr String.append EmptyString l.

(** The text does not begin, or does not end, with a character that
    [str.strip()] removes. *)
Definition no_leading_space (s : string) : Prop :=
  ∀ w rest, w ∈ whitespace → s ≠ w +:+ rest.

Definition no_trailing_space (s : string) : Prop :=
  ∀ w rest, w ∈ whitespace → s ≠ rest +:+ w.

(** A mapper configuration whose only rule names a dictionary that the store
    does not have. *)
Definition misconfigured : SimpleSurveyMapper.t :=
  {| SimpleSurveyMapper.mappings := ∅;
     SimpleSurveyMapper.survey_columns :=
       {[ "survey_1" := {[ "NPS_Score" := "recommendation_10_scale" ]} ]};
     SimpleSurveyMapper.default_mappings := ∅ |}.

(** The summary rows the output and display cells count as successful. *)
Definition successful (summary : list Summary) : list Summary :=
  filter (λ row, Processing_Status row = "Success") summary.

(** The summary rows flagged as carrying LTR or driver data. *)
Definition flagged (summary : list Summary) : list Summary :=
  filter (λ row, Has_LTR_Data row || Has_Driver_Data row = true) summary.

(** The summary and the stored frames tell the same story: the stored frames
    are the frames of the successful rows, with the counts those rows
    record; the records add up to the stored rows; and there are as many
    projections as flagged rows. *)
Definition summary_agrees (st : PipelineState) : Prop :=
  len <$> all_survey_data st
  = Records_Processed <$> successful (processing_summary st)
  ∧ (λ df, length (columns df)) <$> all_survey_data st
    = Columns_Count <$> successful (processing_summary st)
  ∧ sum_list (Records_Processed <$> processing_summary st)
    = sum_list (len <$> all_survey_data st)
  ∧ length (nps_driver_data st)
    = length (flagged (processing_summary st)).

(** ** Proof steps used more than once *)

(** Open one iteration of the loop down to its statements. *)
Ltac unfold_step :=
  unfold process_survey, try_except, process_body, bind, call, ret,
    append_all, append_nps, append_summary, state_app, only_summary,
    initial_state; simpl.

(** Two output paths that differ in their text. *)
Ltac paths_differ :=
  let H := fresh in intros H; vm_compute in H; discriminate H.

(** Read a path back after writes of the output cell. *)
Ltac read_back :=
  unfold apply_ops;
  cbn [foldl apply_op app written fold_left];
  repeat first
    [ rewrite lookup_insert_eq; reflexivity
    | rewrite lookup_insert_ne by paths_differ ].

(** Two output paths that differ: by their text, or by their timestamps
    when [lem] says the path determines the timestamp. *)
Ltac other_path lem :=
  let H := fresh in
  intros H; cbn [target] in H; apply (inj Some) in H;
  first
    [ vm_compute in H; discriminate H
    | apply lem in H; [congruence|done|done] ].

(** * Properties *)

(** ** Column validator *)

Lemma auto_added_columns_spec (c : string) :
  c ∈ auto_added_columns ↔ c = "Survey_Name" ∨ c = "Processed_Date".
Proof. unfold auto_added_columns. set_solver. Qed.

(** C4: [validate_columns] returns as [invalid_columns] the dataset's column
    set minus the two bookkeeping columns minus the taxonomy's column names,
    and [is_valid] is true exactly when that remainder is empty.  A dataset
    with exactly one column that is neither in the taxonomy nor a bookkeeping
    column is invalid with exactly that column reported; a dataset all of
    whose columns are taxonomy or bookkeeping columns is valid. *)
Theorem validate_columns_spec (df : DataFrame) (survey_name : string)
    (all_columns_dict : gmap string string) :
  let remainder : gset string :=
    (list_to_set (columns df) ∖ auto_added_columns) ∖ dom all_columns_dict in
  (validate_columns df survey_name all_columns_dict).2 = remainder
  ∧ ((validate_columns df survey_name all_columns_dict).1 = true
     ↔ remainder = ∅)
  ∧ (∀ c, c ∈ columns df → c ∉ auto_added_columns →
          c ∉ dom all_columns_dict →
          (∀ c', c' ∈ columns df → c' ≠ c →
                 c' ∈ auto_added_columns ∨ c' ∈ dom all_columns_dict) →
          validate_columns df survey_name all_columns_dict = (false, {[ c ]}))
  ∧ ((∀ c, c ∈ columns df →
           c ∈ dom all_columns_dict ∨ c ∈ auto_added_columns) →
     validate_columns df survey_name all_columns_dict = (true, ∅)).
Proof.
  intros remainder. unfold validate_columns. fold remainder.
  repeat split.
  - case_bool_decide as Hne; simpl; [done|].
    symmetry. destruct (decide (remainder = ∅)); [done|contradiction].
  - case_bool_decide as Hne; simpl; [done|].
    intros _. destruct (decide (remainder = ∅)); [done|contradiction].
  - intros Hempty. case_bool_decide; [contradiction|done].
  - intros c Hin Hauto Htax Hothers.
    assert (remainder = {[ c ]}) as ->.
    { apply set_eq. intros x. subst remainder.
      rewrite !elem_of_difference, elem_of_list_to_set, elem_of_singleton.
      split.
      - intros [[Hx Hxa] Hxt]. destruct (decide (x = c)); [done|].
        destruct (Hothers x Hx ltac:(done)); contradiction.
      - intros ->. done. }
    rewrite bool_decide_eq_true_2; [done|]. set_solver.
  - intros Hall.
    assert (remainder = ∅) as ->.
    { apply set_eq. intros x. subst remainder.
      rewrite !elem_of_difference, elem_of_list_to_set.
      split; [|set_solver].
      intros [[Hx Hxa] Hxt]. destruct (Hall x Hx); contradiction. }
    rewrite bool_decide_eq_false_2; [done|]. intros H. by apply H.
Qed.

Lemma validate_columns_spec_witness :
  validate_columns Demo.s2 "survey_2" Demo.taxonomy = (false, {[ "Weird_Column" ]})
  ∧ validate_columns
      {| nrows := 0;
         cols := [("ResponseID", []); ("Survey_Name", []);
                  ("Processed_Date", [])] |}
      "survey_1" Demo.taxonomy = (true, ∅).
Proof.
  split.
  - apply (validate_columns_spec Demo.s2 "survey_2" Demo.taxonomy).
    + vm_compute. set_solver.
    + rewrite auto_added_columns_spec. intros [?|?]; discriminate.
    + apply not_elem_of_dom. by vm_compute.
    + intros c' Hc' Hne. right. simpl in Hc'.
      apply elem_of_cons in Hc' as [->|Hc'];
        [apply elem_of_dom; eexists; by vm_compute|].
      apply elem_of_cons in Hc' as [->|Hc'];
        [apply elem_of_dom; eexists; by vm_compute|].
      apply elem_of_cons in Hc' as [->|Hc']; [done|].
      by apply elem_of_nil in Hc'.
  - apply (validate_columns_spec
             {| nrows := 0;
                cols := [("ResponseID", []); ("Survey_Name", []);
                         ("Processed_Date", [])] |} "survey_1" Demo.taxonomy).
    intros c Hc. simpl in Hc. rewrite auto_added_columns_spec.
    apply elem_of_cons in Hc as [->|Hc];
      [left; apply elem_of_dom; eexists; by vm_compute|].
    apply elem_of_cons in Hc as [->|Hc]; [right; by left|].
    apply elem_of_cons in Hc as [->|Hc]; [right; by right|].
    by apply elem_of_nil in Hc.
Defined.

(** ** LTR and driver projection *)

Lemma elem_of_columns_of_type (t c : string)
    (all_columns_dict : gmap string string) (df : DataFrame) :
  c ∈ columns_of_type t all_columns_dict df
  ↔ all_columns_dict !! c = Some t ∧ c ∈ columns df.
Proof.
  unfold columns_of_type. rewrite list_elem_of_fmap. split.
  - intros [[k v] [-> Hkv]]. apply elem_of_map_to_list in Hkv.
    apply map_lookup_filter_Some in Hkv as [Hk [Hv Hin]]. simpl in *.
    by subst.
  - intros [Hc Hin]. exists (c, t). split; [done|].
    apply elem_of_map_to_list, map_lookup_filter_Some. done.
Qed.

Lemma length_pos_elem_of {A} (l : list A) :
  (0 < length l)%nat ↔ ∃ x, x ∈ l.
Proof.
  destruct l as [|x l]; simpl.
  - split; [lia|]. intros [x Hx]. by apply elem_of_nil in Hx.
  - split; [|lia]. intros _. exists x. by left.
Qed.

Lemma len_select_columns (labels : list string) (df : DataFrame) :
  len (select_columns labels df) = len df.
Proof. done. Qed.

(** Selecting by distinct labels keeps the columns that carry one of them,
    each once. *)
Lemma cols_select_columns (labels : list string) (df : DataFrame) :
  NoDup labels →
  cols (select_columns labels df)
  ≡ₚ filter (λ lc, lc.1 ∈ labels) (cols df).
Proof.
  unfold select_columns. simpl. generalize (cols df). intros l.
  induction labels as [|c labels IH]; intros Hnd.
  - simpl. induction l as [|lc l IHl]; [done|].
    rewrite filter_cons_False; [done|]. apply not_elem_of_nil.
  - apply NoDup_cons in Hnd as [Hc Hnd]. rewrite bind_cons, (IH Hnd).
    clear IH. induction l as [|lc l IHl]; [done|].
    destruct (decide (lc.1 = c)) as [Heq|Hne].
    + rewrite (filter_cons_True (λ lc, lc.1 = c)) by done.
      rewrite (filter_cons_False (λ lc, lc.1 ∈ labels)) by (by rewrite Heq).
      rewrite (filter_cons_True (λ lc, lc.1 ∈ c :: labels))
        by (rewrite Heq; left).
      simpl. by rewrite IHl.
    + rewrite (filter_cons_False (λ lc, lc.1 = c)) by done.
      destruct (decide (lc.1 ∈ labels)) as [Hin|Hnin].
      * rewrite (filter_cons_True (λ lc, lc.1 ∈ labels)) by done.
        rewrite (filter_cons_True (λ lc, lc.1 ∈ c :: labels))
          by (by right).
        rewrite <- Permutation_middle. by rewrite IHl.
      * rewrite (filter_cons_False (λ lc, lc.1 ∈ labels)) by done.
        rewrite (filter_cons_False (λ lc, lc.1 ∈ c :: labels)); [done|].
        rewrite elem_of_cons. tauto.
Qed.

Lemma elem_of_columns_select_columns (labels : list string) (df : DataFrame)
    (c : string) :
  c ∈ columns (select_columns labels df) ↔ c ∈ labels ∧ c ∈ columns df.
Proof.
  unfold columns, select_columns. simpl.
  rewrite !list_elem_of_fmap. split.
  - intros [[l values] [-> Hin]]. apply list_elem_of_bind in Hin
      as [c' [Hin Hc']]. apply list_elem_of_filter in Hin as [Heq Hin].
    simpl in *. subst c'. split; [done|]. by exists (l, values).
  - intros [Hc [[l values] [-> Hin]]]. exists (l, values). split; [done|].
    apply list_elem_of_bind. exists l. split; [|done].
    by apply list_elem_of_filter.
Qed.

Lemma extract_ltr_and_drivers_Some (df : DataFrame) (survey_name : string)
    (all_columns_dict : gmap string string) :
  has_ltr_or_drivers all_columns_dict df →
  extract_ltr_and_drivers df survey_name all_columns_dict
  = Some (select_columns
            (list_of_set (projected_columns all_columns_dict df)) df).
Proof.
  intros [c [Hc Ht]]. unfold extract_ltr_and_drivers.
  rewrite bool_decide_eq_true_2.
  - f_equal. f_equal. f_equal. apply set_eq. intros x.
    unfold projected_columns, projected.
    rewrite elem_of_list_to_set, !elem_of_app, elem_of_filter,
      !elem_of_columns_of_type, elem_of_list_to_set, list_elem_of_filter.
    rewrite auto_added_columns_spec.
    rewrite !elem_of_cons, elem_of_nil. clear c Hc Ht. tauto.
  - rewrite !length_pos_elem_of. destruct Ht as [Ht|Ht]; [left|right];
      exists c; by apply elem_of_columns_of_type.
Qed.

Lemma extract_ltr_and_drivers_None (df : DataFrame) (survey_name : string)
    (all_columns_dict : gmap string string) :
  ¬ has_ltr_or_drivers all_columns_dict df →
  extract_ltr_and_drivers df survey_name all_columns_dict = None.
Proof.
  intros Hno. unfold extract_ltr_and_drivers.
  rewrite bool_decide_eq_false_2; [done|].
  rewrite !length_pos_elem_of.
  intros [[c Hc]|[c Hc]]; apply elem_of_columns_of_type in Hc as [Ht Hc];
    apply Hno; exists c; auto.
Qed.

(** ** Combining frames *)

Lemma fst_imap_pair {B} (g : nat → string → B) (L : list string) :
  (imap (λ j l, (l, g j l)) L).*1 = L.
Proof.
  revert g. induction L as [|l L IH]; intros g; [done|].
  simpl. f_equal. apply (IH (λ j l, g (S j) l)).
Qed.

Lemma elem_of_foldl_add_labels (acc : list string) (ls : list (list string))
    (c : string) :
  c ∈ foldl add_labels acc ls ↔ c ∈ acc ∨ ∃ l, l ∈ ls ∧ c ∈ l.
Proof.
  revert acc. induction ls as [|l ls IH]; intros acc; simpl.
  - split; [auto|]. intros [?|[l [Hl _]]]; [done|].
    by apply elem_of_nil in Hl.
  - rewrite IH. unfold add_labels.
    rewrite elem_of_app, list_elem_of_filter. split.
    + intros [[?|[_ ?]]|[l' [Hl' ?]]]; [by left| |].
      * right. exists l. split; [by left|done].
      * right. exists l'. split; [by right|done].
    + intros [?|[l' [Hl' Hc]]]; [by left; left|].
      apply elem_of_cons in Hl' as [->|Hl'].
      * destruct (decide (c ∈ acc)); [by left; left|]. left. right. done.
      * right. by exists l'.
Qed.

(** A combined frame that [concat] returns: its labels are the labels all
    the frames have, or the union of the labels of frames none of which
    repeats a label. *)
Lemma concat_inr (frames : list DataFrame) (combined : DataFrame) :
  concat frames = inr combined →
  frames ≠ []
  ∧ ∃ L,
      combined
      = {| nrows := sum_list (nrows <$> frames);
           cols := imap (λ j l,
                     (l, mjoin ((λ df, aligned_column L df j l) <$> frames)))
                     L |}
      ∧ ((∀ df, df ∈ frames → columns df = L)
         ∨ ((∀ df, df ∈ frames → NoDup (columns df))
            ∧ L = foldl add_labels [] (columns <$> frames))).
Proof.
  unfold concat. destruct frames as [|first rest]; [done|].
  destruct (forallb _ rest) eqn:Hsame; simpl.
  - intros [= <-]. split; [done|]. eexists. split; [reflexivity|]. left.
    intros df [->|Hdf]%elem_of_cons; [done|].
    rewrite forallb_forall in Hsame.
    apply list_elem_of_In, Hsame in Hdf. by apply bool_decide_eq_true in Hdf.
  - destruct (has_repeated (columns first) || existsb _ rest) eqn:Hrep;
      [done|].
    intros [= <-]. split; [done|]. eexists. split; [reflexivity|]. right.
    split; [|done].
    apply orb_false_iff in Hrep as [Hfirst Hrest].
    assert (∀ df, has_repeated (columns df) = false → NoDup (columns df))
      as Hnd.
    { intros df H. unfold has_repeated in H.
      apply bool_decide_eq_false in H.
      by destruct (decide (NoDup (columns df))). }
    intros df [->|Hdf]%elem_of_cons; [by apply Hnd|].
    apply Hnd. apply not_true_is_false. intros Htrue.
    assert (existsb (λ df, has_repeated (columns df)) rest = true) as Hex;
      [|congruence].
    apply existsb_exists. exists df. split; [by apply list_elem_of_In|done].
Qed.

Lemma len_concat (frames : list DataFrame) (combined : DataFrame) :
  concat frames = inr combined →
  len combined = sum_list (len <$> frames).
Proof. intros (_ & L & -> & _)%concat_inr. done. Qed.


(** Frames of which one repeats a label and one has other labels cannot. *)
Lemma concat_raises (frames : list DataFrame) (df df' : DataFrame) :
  df ∈ frames → df' ∈ frames →
  ¬ NoDup (columns df) → columns df' ≠ columns df →
  concat frames
  = raise "Reindexing only valid with uniquely valued Index objects".
Proof.
  intros Hdf Hdf' Hrep Hne. unfold concat.
  destruct frames as [|first rest]; [by apply elem_of_nil in Hdf|].
  assert (existsb (λ df, has_repeated (columns df)) (first :: rest) = true)
    as ->.
  { apply existsb_exists. exists df. split; [by apply list_elem_of_In|].
    by apply bool_decide_eq_true. }
  assert (forallb (λ df, bool_decide (columns df = columns first)) rest
          = false) as ->; [|done].
  apply not_true_is_false. intros Hsame. rewrite forallb_forall in Hsame.
  assert (∀ d, d ∈ first :: rest → columns d = columns first) as Hall.
  { intros d [->|Hd]%elem_of_cons; [done|].
    apply list_elem_of_In, Hsame in Hd. by apply bool_decide_eq_true in Hd. }
  apply Hne. by rewrite (Hall df Hdf), (Hall df' Hdf').
Qed.

Lemma elem_of_columns_concat (frames : list DataFrame) (combined : DataFrame)
    (c : string) :
  concat frames = inr combined →
  c ∈ columns combined ↔ ∃ df, df ∈ frames ∧ c ∈ columns df.
Proof.
  intros (Hne & L & -> & HL)%concat_inr. unfold columns at 1. simpl.
  rewrite fst_imap_pair. destruct HL as [Hsame|[_ ->]].
  - split.
    + intros Hc. destruct frames as [|df frames]; [done|].
      exists df. split; [left|]. by rewrite (Hsame df) by left.
    + intros [df [Hdf Hc]]. by rewrite <- (Hsame df Hdf).
  - rewrite elem_of_foldl_add_labels. split.
    + intros [Hc|[l [Hl Hc]]]; [by apply elem_of_nil in Hc|].
      apply list_elem_of_fmap in Hl as [df [-> Hdf]]. eauto.
    + intros [df [Hdf Hc]]. right. exists (columns df). split; [|done].
      apply list_elem_of_fmap. eauto.
Qed.

Lemma join_segment {A} (ls : list (list A)) (k : nat) (x : list A) :
  ls !! k = Some x →
  take (length x) (drop (sum_list (length <$> take k ls)) (mjoin ls)) = x.
Proof.
  revert k. induction ls as [|l ls IH]; intros k Hk; [done|].
  destruct k as [|k]; simpl in *.
  - injection Hk as ->. apply take_app_length.
  - rewrite drop_app_add. by apply IH.
Qed.

Lemma values_unique (df : DataFrame) (c : string) (v1 v2 : list Cell) :
  NoDup (columns df) → (c, v1) ∈ cols df → (c, v2) ∈ cols df → v1 = v2.
Proof.
  unfold columns. induction (cols df) as [|[l v] rest IH]; simpl.
  - intros _ H. by apply elem_of_nil in H.
  - intros [Hl Hnd]%NoDup_cons H1 H2.
    apply elem_of_cons in H1, H2.
    destruct H1 as [H1|H1], H2 as [H2|H2]; simplify_eq/=.
    + done.
    + destruct Hl. apply list_elem_of_fmap. by exists (l, v2).
    + destruct Hl. apply list_elem_of_fmap. by exists (l, v1).
    + by apply IH.
Qed.

Lemma column_by_label_unique (df : DataFrame) (c : string)
    (values : list Cell) :
  NoDup (columns df) → (c, values) ∈ cols df →
  column_by_label df c = values.
Proof.
  intros Hnd Hin. unfold column_by_label.
  destruct (List.find _ (cols df)) as [[l v]|] eqn:Hfind; simpl.
  - apply find_some in Hfind as [Hin' Hl]. simpl in Hl.
    apply bool_decide_eq_true in Hl as ->. apply list_elem_of_In in Hin'.
    by apply (values_unique df c).
  - apply list_elem_of_In in Hin.
    pose proof (find_none _ _ Hfind _ Hin) as Hl. simpl in Hl.
    by apply bool_decide_eq_false in Hl.
Qed.

(** What a frame holds is found in the combined frame, from the rows of the
    frames before it on. *)
Lemma concat_appears (frames : list DataFrame) (combined df : DataFrame)
    (k : nat) :
  concat frames = inr combined → frames !! k = Some df →
  appears_at (rows_before frames k) df combined
  ∧ (rows_before frames k + len df ≤ len combined)%nat.
Proof.
  intros Hconcat Hk. split.
  - apply concat_inr in Hconcat as (_ & L & -> & HL).
    intros c values Hin. simpl.
    assert (df ∈ frames) as Hdf by (by eapply list_elem_of_lookup_2).
    assert (∃ j, L !! j = Some c
                 ∧ aligned_column L df j c = resize (nrows df) NaN values)
      as (j & Hj & Haligned).
    { unfold aligned_column. destruct HL as [Hsame|[Hnd ->]].
      - apply list_elem_of_lookup in Hin as [j Hj]. exists j.
        rewrite <- (Hsame df Hdf). unfold columns.
        rewrite list_lookup_fmap, Hj. split; [done|].
        by rewrite bool_decide_eq_true_2.
      - assert (c ∈ foldl add_labels [] (columns <$> frames)) as Hc.
        { apply elem_of_foldl_add_labels. right. exists (columns df).
          split; [apply list_elem_of_fmap; eauto|].
          apply list_elem_of_fmap. by exists (c, values). }
        apply list_elem_of_lookup in Hc as [j Hj]. exists j.
        split; [done|]. f_equal. case_bool_decide as Heq.
        + rewrite <- Heq in Hj. unfold columns in Hj.
          rewrite list_lookup_fmap in Hj.
          destruct (cols df !! j) as [[l v]|] eqn:Hlv; [|done].
          simpl in *. injection Hj as ->.
          apply (values_unique df c); [by apply Hnd| |done].
          by eapply list_elem_of_lookup_2.
        + apply column_by_label_unique; [by apply Hnd|done]. }
    exists (mjoin ((λ d, aligned_column L d j c) <$> frames)). split.
    + apply (list_elem_of_lookup_2 _ j).
      by rewrite list_lookup_imap, Hj.
    + unfold rows_before. change (len df) with (nrows df).
      assert (sum_list (len <$> take k frames)
              = sum_list (length <$> take k ((λ d, aligned_column L d j c)
                                               <$> frames))) as ->.
      { rewrite <- fmap_take, <- list_fmap_compose. f_equal.
        apply list_fmap_ext. intros _ d _. simpl. unfold aligned_column.
        by rewrite length_resize. }
      rewrite <- Haligned.
      rewrite <- (length_resize (if bool_decide (columns df = L)
                                 then from_option snd [] (cols df !! j)
                                 else column_by_label df c) (nrows df) NaN)
        at 1.
      apply join_segment. by rewrite list_lookup_fmap, Hk.
  - rewrite (len_concat _ _ Hconcat). unfold rows_before.
    rewrite <- (take_drop k frames) at 2.
    rewrite fmap_app, sum_list_with_app.
    apply Nat.add_le_mono_l.
    rewrite (drop_S _ _ _ Hk). simpl. lia.
Qed.

(** ** Python strings *)

Lemma list_ascii_of_string_append (s t : string) :
  list_ascii_of_string (s +:+ t)
  = list_ascii_of_string s ++ list_ascii_of_string t.
Proof.
  induction s as [|a s IH]; [done|].
  change (String a s +:+ t) with (String a (s +:+ t)).
  simpl. by rewrite IH.
Qed.

Lemma list_ascii_of_string_inj (s t : string) :
  list_ascii_of_string s = list_ascii_of_string t → s = t.
Proof.
  intros H. rewrite <- (string_of_list_ascii_of_string s),
    <- (string_of_list_ascii_of_string t). by rewrite H.
Qed.

Lemma append_inj_r (s1 s2 t : string) : s1 +:+ t = s2 +:+ t → s1 = s2.
Proof.
  intros H. apply (f_equal list_ascii_of_string) in H.
  rewrite !list_ascii_of_string_append in H. apply app_inv_tail in H.
  by apply list_ascii_of_string_inj.
Qed.

Lemma list_ascii_of_string_rev_app (s1 s2 : string) :
  list_ascii_of_string (String.rev_app s1 s2)
  = rev (list_ascii_of_string s1) ++ list_ascii_of_string s2.
Proof.
  revert s2. induction s1 as [|a s1 IH]; intros s2; simpl; [done|].
  rewrite IH. simpl. by rewrite <- app_assoc.
Qed.

Lemma list_ascii_of_string_rev (s : string) :
  list_ascii_of_string (String.rev s) = rev (list_ascii_of_string s).
Proof.
  unfold String.rev. rewrite list_ascii_of_string_rev_app. simpl.
  by rewrite app_nil_r.
Qed.

Lemma string_rev_involutive (s : string) : String.rev (String.rev s) = s.
Proof.
  apply list_ascii_of_string_inj.
  by rewrite !list_ascii_of_string_rev, rev_involutive.
Qed.

Lemma string_rev_append (s t : string) :
  String.rev (s +:+ t) = String.rev t +:+ String.rev s.
Proof.
  apply list_ascii_of_string_inj.
  by rewrite list_ascii_of_string_rev, !list_ascii_of_string_append,
    rev_app_distr, !list_ascii_of_string_rev.
Qed.

Lemma string_append_assoc (s t u : string) :
  (s +:+ t) +:+ u = s +:+ t +:+ u.
Proof.
  apply list_ascii_of_string_inj.
  by rewrite !list_ascii_of_string_append, app_assoc.
Qed.

Lemma string_append_nil_r (s : string) : s +:+ EmptyString = s.
Proof.
  apply list_ascii_of_string_inj.
  rewrite list_ascii_of_string_append. apply app_nil_r.
Qed.

Lemma string_length_list_ascii (s : string) :
  String.length s = length (list_ascii_of_string s).
Proof. induction s as [|a s IH]; simpl; congruence. Qed.

Lemma string_length_rev (s : string) :
  String.length (String.rev s) = String.length s.
Proof.
  rewrite !string_length_list_ascii, list_ascii_of_string_rev.
  apply length_rev.
Qed.

Lemma string_append_cons (a : ascii) (s t : string) :
  String a s +:+ t = String a (s +:+ t).
Proof. done. Qed.

Lemma string_append_nil_l (t : string) : EmptyString +:+ t = t.
Proof. done. Qed.

(** A member of [ws] that begins a text is one of the text's first three
    prefixes.  *)
Lemma short_prefix (ws : list string) (w rest : string) (a : ascii)
    (s1 : string) :
  (∀ w, w ∈ ws → (1 ≤ String.length w ≤ 3)%nat) → w ∈ ws →
  String a s1 = w +:+ rest →
  String a EmptyString ∈ ws
  ∨ (∃ b s2, s1 = String b s2
             ∧ (String a (String b EmptyString) ∈ ws
                ∨ ∃ c s3, s2 = String c s3
                          ∧ String a (String b (String c EmptyString)) ∈ ws)).
Proof.
  intros Hws Hw Heq. pose proof (Hws w Hw) as Hlen.
  destruct w as [|a' [|b' [|c' [|d' w']]]]; simpl in Hlen; try lia;
    rewrite ?string_append_cons, ?string_append_nil_l in Heq;
    simplify_eq/=; eauto 10.
Qed.

Lemma lstrip_of_spec (ws : list string) (s : string) :
  (∀ w, w ∈ ws → (1 ≤ String.length w ≤ 3)%nat) →
  (∃ l, Forall (λ w, w ∈ ws) l
        ∧ s = foldr String.append EmptyString l +:+ lstrip_of ws s)
  ∧ ∀ w rest, w ∈ ws → lstrip_of ws s ≠ w +:+ rest.
Proof.
  intros Hws.
  assert (∀ w rest, w ∈ ws → EmptyString ≠ w +:+ rest) as Hempty.
  { intros w rest Hw. pose proof (Hws w Hw). destruct w; simpl in *; [lia|].
    rewrite string_append_cons. discriminate. }
  remember (String.length s) as n eqn:Hn. revert s Hn.
  induction n as [n IH] using lt_wf_ind. intros s Hn.
  destruct s as [|a s1]; simpl.
  { split; [by exists []|done]. }
  case_bool_decide as H1.
  { destruct (IH (String.length s1)) with (s := s1) as [[l [Hl Hs]] Hno];
      [simpl in Hn; lia|done|].
    split; [|done]. exists (String a EmptyString :: l).
    split; [by constructor|]. cbn [foldr].
    by rewrite string_append_assoc, !string_append_cons,
      string_append_nil_l, <- Hs. }
  destruct s1 as [|b s2].
  { split; [by exists []|]. intros w rest Hw Heq.
    destruct (short_prefix ws w rest a EmptyString Hws Hw Heq)
      as [?|(? & ? & ? & _)]; done. }
  case_bool_decide as H2.
  { destruct (IH (String.length s2)) with (s := s2) as [[l [Hl Hs]] Hno];
      [simpl in Hn; lia|done|].
    split; [|done]. exists (String a (String b EmptyString) :: l).
    split; [by constructor|]. cbn [foldr].
    by rewrite string_append_assoc, !string_append_cons,
      string_append_nil_l, <- Hs. }
  destruct s2 as [|c s3].
  { split; [by exists []|]. intros w rest Hw Heq.
    destruct (short_prefix ws w rest a _ Hws Hw Heq)
      as [?|(? & ? & ? & [?|(? & ? & ? & _)])]; simplify_eq/=; done. }
  case_bool_decide as H3.
  { destruct (IH (String.length s3)) with (s := s3) as [[l [Hl Hs]] Hno];
      [simpl in Hn; lia|done|].
    split; [|done].
    exists (String a (String b (String c EmptyString)) :: l).
    split; [by constructor|]. cbn [foldr].
    by rewrite string_append_assoc, !string_append_cons,
      string_append_nil_l, <- Hs. }
  split; [by exists []|]. intros w rest Hw Heq.
  destruct (short_prefix ws w rest a _ Hws Hw Heq)
    as [?|(? & ? & ? & [?|(? & ? & ? & ?)])]; simplify_eq/=; done.
Qed.

Lemma lstrip_of_fixed (ws : list string) (s : string) :
  (∀ w rest, w ∈ ws → s ≠ w +:+ rest) → lstrip_of ws s = s.
Proof.
  intros Hno. destruct s as [|a s1]; [done|]. simpl.
  rewrite bool_decide_eq_false_2
    by (intros H; by apply (Hno _ s1 H)).
  destruct s1 as [|b s2]; [done|].
  rewrite bool_decide_eq_false_2
    by (intros H; by apply (Hno _ s2 H)).
  destruct s2 as [|c s3]; [done|].
  rewrite bool_decide_eq_false_2
    by (intros H; by apply (Hno _ s3 H)).
  done.
Qed.

Lemma whitespace_lengths (w : string) :
  w ∈ whitespace → (1 ≤ String.length w ≤ 3)%nat.
Proof.
  revert w. apply Forall_forall.
  apply (bool_decide_unpack _). by vm_compute.
Qed.

Lemma reversed_whitespace_lengths (w : string) :
  w ∈ String.rev <$> whitespace → (1 ≤ String.length w ≤ 3)%nat.
Proof.
  intros [w' [-> Hw']]%list_elem_of_fmap. rewrite string_length_rev.
  by apply whitespace_lengths.
Qed.

Lemma foldr_append_app (k : list string) (x : string) :
  foldr String.append x k = foldr String.append EmptyString k +:+ x.
Proof.
  induction k as [|y k IH]; [done|]. cbn [foldr].
  by rewrite IH, string_append_assoc.
Qed.

Lemma string_rev_foldr_append (l : list string) :
  String.rev (foldr String.append EmptyString l)
  = foldr String.append EmptyString (rev (String.rev <$> l)).
Proof.
  induction l as [|w l IH]; [done|]. cbn [foldr fmap list_fmap rev].
  rewrite string_rev_append, IH, foldr_app. cbn [foldr].
  by rewrite string_append_nil_r, <- foldr_append_app.
Qed.

(** [str.strip()]: the text is the stripped text between two runs of
    whitespace, and the stripped text neither begins nor ends with a
    whitespace character. *)
Lemma strip_spec (s : string) :
  (∃ pre post, spaces pre ∧ spaces post ∧ s = pre +:+ strip s +:+ post)
  ∧ no_leading_space (strip s) ∧ no_trailing_space (strip s).
Proof.
  unfold strip, lstrip.
  destruct (lstrip_of_spec whitespace s whitespace_lengths)
    as [[l [Hl Hs]] Hlead].
  set (u := lstrip_of whitespace s) in *.
  unfold rstrip.
  destruct (lstrip_of_spec (String.rev <$> whitespace) (String.rev u)
              reversed_whitespace_lengths) as [[l' [Hl' Hu]] Htrail].
  set (t := lstrip_of (String.rev <$> whitespace) (String.rev u)) in *.
  assert (u = String.rev t
              +:+ foldr String.append EmptyString (rev (String.rev <$> l')))
    as Hu'.
  { rewrite <- (string_rev_involutive u), Hu, string_rev_append.
    by rewrite string_rev_foldr_append. }
  split; [|split].
  - exists (foldr String.append EmptyString l),
      (foldr String.append EmptyString (rev (String.rev <$> l'))).
    split; [by exists l|]. split; [|by rewrite <- Hu'].
    eexists. split; [|done]. apply Forall_rev, Forall_fmap.
    eapply Forall_impl; [exact Hl'|].
    intros w Hw. apply list_elem_of_fmap in Hw as [w' [-> Hw']].
    unfold compose. by rewrite string_rev_involutive.
  - intros w rest Hw Heq. apply (Hlead w (rest +:+ foldr String.append
      EmptyString (rev (String.rev <$> l'))) Hw).
    by rewrite Hu', Heq, string_append_assoc.
  - intros w rest Hw Heq.
    apply (Htrail (String.rev w) (String.rev rest)).
    + apply list_elem_of_fmap. eauto.
    + by rewrite <- string_rev_append, <- Heq, string_rev_involutive.
Qed.

Lemma strip_fixed (s : string) :
  no_leading_space s → no_trailing_space s → strip s = s.
Proof.
  intros Hlead Htrail. unfold strip, lstrip, rstrip.
  rewrite (lstrip_of_fixed whitespace s Hlead).
  rewrite lstrip_of_fixed; [apply string_rev_involutive|].
  intros w rest [w' [-> Hw']]%list_elem_of_fmap Heq.
  apply (Htrail w' (String.rev rest) Hw').
  by rewrite <- (string_rev_involutive s), Heq, string_rev_append,
    string_rev_involutive.
Qed.

(** ** The per-survey loop *)

Lemma state_app_initial_r (st : PipelineState) :
  state_app st initial_state = st.
Proof. destruct st. unfold state_app. simpl. by rewrite !app_nil_r. Qed.

Lemma state_app_initial_l (st : PipelineState) :
  state_app initial_state st = st.
Proof. by destruct st. Qed.

Lemma state_app_assoc (a b c : PipelineState) :
  state_app a (state_app b c) = state_app (state_app a b) c.
Proof. unfold state_app. simpl. by rewrite !app_assoc. Qed.

Section PipelineFacts.

Variable ALL_COLUMNS : gmap string string.
Variable files : gmap string string.
Variable read_sql_query : string → Exc DataFrame.
Variable mapper : Mapper.
Variable now : Z.
Variable extract_defined : bool.

Abbreviation step :=
  (process_survey ALL_COLUMNS files read_sql_query mapper now extract_defined).
Abbreviation steps :=
  (process_surveys ALL_COLUMNS files read_sql_query mapper now extract_defined).
Abbreviation body :=
  (process_body ALL_COLUMNS files read_sql_query mapper now extract_defined).

(** An iteration never lets an exception out, and only appends: what it
    appends does not depend on what the lists already hold. *)
Lemma process_survey_app (survey_name : string) (st : PipelineState) :
  step survey_name st
  = (inr tt, state_app st (step survey_name initial_state).2).
Proof.
  unfold_step.
  repeat (case_match; simplify_eq/=); rewrite ?app_nil_r; try done.
Qed.

Lemma process_surveys_app (SURVEYS : list string) (st : PipelineState) :
  steps SURVEYS st
  = (inr tt,
     foldl (λ acc s, state_app acc (step s initial_state).2) st SURVEYS).
Proof.
  revert st. induction SURVEYS as [|s rest IH]; intros st; simpl.
  - done.
  - unfold bind. rewrite process_survey_app. apply IH.
Qed.

(** The row an iteration adds to the summary. *)
Lemma process_survey_summary (survey_name : string) :
  ∃ row, processing_summary (step survey_name initial_state).2 = [row]
         ∧ Survey_Name row = survey_name
         ∧ is_status (Processing_Status row).
Proof.
  unfold_step.
  repeat (case_match; simplify_eq/=);
    eexists; (split; [reflexivity|]); (split; [reflexivity|]); simpl;
    constructor.
Qed.

Lemma process_survey_handler (survey_name e : string) (st st1 : PipelineState) :
  body survey_name st = (inl e, st1) →
  step survey_name st
  = (inr tt, state_app st1
               (only_summary (empty_summary now survey_name ("Error: " +:+ e)))).
Proof.
  intros Hbody. unfold process_survey, try_except. rewrite Hbody.
  unfold append_summary, state_app, only_summary. simpl.
  by rewrite !app_nil_r.
Qed.

Lemma foldl_state_app_summary (SURVEYS : list string) (st : PipelineState) :
  processing_summary
    (foldl (λ acc s, state_app acc (step s initial_state).2) st SURVEYS)
  = processing_summary st
    ++ mjoin ((λ s, processing_summary (step s initial_state).2) <$> SURVEYS).
Proof.
  revert st. induction SURVEYS as [|s rest IH]; intros st; simpl.
  - by rewrite app_nil_r.
  - rewrite IH. simpl. by rewrite app_assoc.
Qed.

Lemma foldl_state_app_all (SURVEYS : list string) (st : PipelineState) :
  all_survey_data
    (foldl (λ acc s, state_app acc (step s initial_state).2) st SURVEYS)
  = all_survey_data st
    ++ mjoin ((λ s, all_survey_data (step s initial_state).2) <$> SURVEYS).
Proof.
  revert st. induction SURVEYS as [|s rest IH]; intros st; simpl.
  - by rewrite app_nil_r.
  - rewrite IH. simpl. by rewrite app_assoc.
Qed.

(** C1: an exception raised in the body of one iteration is caught by that
    iteration's handler and becomes a summary row with status
    [Error: <detail>]; the loop then goes on with the remaining surveys; the
    run itself never raises, its summary has exactly one row per survey of
    the list, in order, and each row's status is one of Success, No Data,
    Failed to load or Error: <detail>. *)
Theorem per_survey_failure_isolation :
  (∀ s e st st1,
      body s st = (inl e, st1) →
      ∃ row, step s st = (inr tt, state_app st1 (only_summary row))
             ∧ Survey_Name row = s
             ∧ Processing_Status row = "Error: " +:+ e)
  ∧ (∀ s rest st,
        ∃ st', step s st = (inr tt, st')
               ∧ steps (s :: rest) st = steps rest st')
  ∧ (∀ SURVEYS,
        ∃ st', run ALL_COLUMNS files read_sql_query mapper now
                   extract_defined SURVEYS = (inr tt, st')
               ∧ Survey_Name <$> processing_summary st' = SURVEYS
               ∧ Forall (λ row, is_status (Processing_Status row))
                        (processing_summary st')).
Proof.
  split; [|split].
  - intros s e st st1 Hbody. eexists. split; [by apply process_survey_handler|].
    done.
  - intros s rest st. eexists. split; [apply process_survey_app|].
    simpl. unfold bind. by rewrite process_survey_app.
  - intros SURVEYS. unfold run. rewrite process_surveys_app.
    eexists. split; [reflexivity|].
    rewrite foldl_state_app_summary. simpl.
    induction SURVEYS as [|s rest [IHn IHs]]; simpl; [done|].
    destruct (process_survey_summary s) as [row [-> [Hn Hs]]]. simpl.
    split; [by f_equal|]. by constructor.
Qed.

(** The loader on a survey whose query file exists and whose query runs. *)
Lemma execute_query_and_load_data_loaded (s query : string) (df : DataFrame) :
  load_sql_query files s = inr query →
  read_sql_query query = inr df →
  execute_query_and_load_data ALL_COLUMNS files read_sql_query s
  = inr (if (validate_columns df s ALL_COLUMNS).1
         then Some (set_column "Survey_Name" (Text s) df) else None).
Proof.
  intros Hload Hread. unfold execute_query_and_load_data.
  rewrite Hload. simpl. rewrite Hread.
  by destruct (validate_columns df s ALL_COLUMNS) as [[] ?].
Qed.

Lemma validate_columns_invalid (df : DataFrame) (s c : string) :
  c ∈ columns df → c ∉ auto_added_columns → ALL_COLUMNS !! c = None →
  (validate_columns df s ALL_COLUMNS).1 = false.
Proof.
  intros Hc Hauto Htax. unfold validate_columns.
  rewrite bool_decide_eq_true_2; [done|].
  intros Hempty.
  assert (c ∈ (∅ : gset string)) as Hin; [|by apply not_elem_of_empty in Hin].
  rewrite <- Hempty.
  rewrite !elem_of_difference, elem_of_list_to_set, not_elem_of_dom. done.
Qed.

(** C2 (amended): a survey whose loaded dataset has a column that is neither
    in the taxonomy nor a bookkeeping column adds nothing to either list of
    frames, gets one summary row with zero counts whose status is
    [Failed to load], and the loop goes on with the next survey. *)
Theorem validation_failure_skips_survey (s query c : string) (df : DataFrame)
    (rest : list string) (st : PipelineState) :
  load_sql_query files s = inr query →
  read_sql_query query = inr df →
  c ∈ columns df → c ∉ auto_added_columns → ALL_COLUMNS !! c = None →
  ∃ st', step s st = (inr tt, st')
         ∧ all_survey_data st' = all_survey_data st
         ∧ nps_driver_data st' = nps_driver_data st
         ∧ processing_summary st'
           = processing_summary st ++ [empty_summary now s "Failed to load"]
         ∧ steps (s :: rest) st = steps rest st'.
Proof.
  intros Hload Hread Hc Hauto Htax.
  assert (step s st
          = (inr tt,
             {| all_survey_data := all_survey_data st;
                nps_driver_data := nps_driver_data st;
                processing_summary :=
                  processing_summary st
                  ++ [empty_summary now s "Failed to load"] |})) as Hstep.
  { unfold process_survey, try_except, process_body, bind, call.
    rewrite (execute_query_and_load_data_loaded s query df Hload Hread).
    by rewrite (validate_columns_invalid df s c Hc Hauto Htax). }
  eexists. split; [exact Hstep|]. repeat split.
  simpl. unfold bind. by rewrite Hstep.
Qed.

Lemma len_set_column (c : string) (v : Cell) (df : DataFrame) :
  len (set_column c v df) = len df.
Proof. done. Qed.

Abbreviation validated :=
  (validated_dataset ALL_COLUMNS files read_sql_query).
Abbreviation stored :=
  (stored_frame ALL_COLUMNS files read_sql_query mapper now).
Abbreviation projection :=
  (stored_projection ALL_COLUMNS files read_sql_query mapper now).

Lemma execute_query_and_load_data_validated (s : string) (df : DataFrame) :
  validated s = Some df →
  execute_query_and_load_data ALL_COLUMNS files read_sql_query s
  = inr (Some (set_column "Survey_Name" (Text s) df)).
Proof.
  unfold validated_dataset. intros H.
  destruct (load_sql_query files s) as [e|query] eqn:Hload; [done|].
  destruct (read_sql_query query) as [e|df'] eqn:Hread; [done|].
  rewrite (execute_query_and_load_data_loaded s query df' Hload Hread).
  destruct ((validate_columns df' s ALL_COLUMNS).1); by simplify_eq.
Qed.

Lemma execute_query_and_load_data_not_validated (s : string) :
  validated s = None →
  execute_query_and_load_data ALL_COLUMNS files read_sql_query s = inr None
  ∨ ∃ e, execute_query_and_load_data ALL_COLUMNS files read_sql_query s
         = inl e.
Proof.
  unfold validated_dataset, execute_query_and_load_data. intros H.
  destruct (load_sql_query files s) as [e|query] eqn:Hload; simpl; [eauto|].
  destruct (read_sql_query query) as [e|df'] eqn:Hread; [eauto|].
  destruct (validate_columns df' s ALL_COLUMNS) as [[] ?]; simpl in *;
    [done|eauto].
Qed.

(** The frames one iteration stores: the survey's frame goes to the full
    list once the three mapper calls have returned, whether or not
    [extract_ltr_and_drivers] can be called after that; its projection goes
    to the LTR/driver list when the function is defined and returns one. *)
Lemma process_survey_frames (s : string) :
  all_survey_data (step s initial_state).2 = option_list (stored s)
  ∧ nps_driver_data (step s initial_state).2
    = if extract_defined then option_list (projection s) else [].
Proof.
  unfold stored_projection, stored_frame.
  destruct (validated s) as [df|] eqn:Hval.
  - unfold process_survey, try_except, process_body, bind, call.
    rewrite (execute_query_and_load_data_validated s df Hval).
    rewrite len_set_column. fold (stamped now s df).
    destruct (0 <? len df)%nat; [|by destruct extract_defined].
    generalize (stamped now s df). intros df2.
    unfold call_extract_ltr_and_drivers, ret, append_all, append_nps,
      append_summary.
    destruct (get_survey_mappings mapper s) as [e|m];
      [by destruct extract_defined|].
    destruct (bool_decide (m ≠ ∅));
      [destruct (transform_survey mapper df2 s) as [e|df3];
         [by destruct extract_defined|]|];
      (destruct (validate_survey_config mapper s _) as [e|v];
         [by destruct extract_defined|]);
      (destruct extract_defined; [|done]); simpl;
      by destruct (extract_ltr_and_drivers _ s ALL_COLUMNS).
  - unfold process_survey, try_except, process_body, bind, call.
    destruct (execute_query_and_load_data_not_validated s Hval)
      as [-> | [e ->]]; by destruct extract_defined.
Qed.

Lemma foldl_state_app_nps (SURVEYS : list string) (st : PipelineState) :
  nps_driver_data
    (foldl (λ acc s, state_app acc (step s initial_state).2) st SURVEYS)
  = nps_driver_data st
    ++ mjoin ((λ s, nps_driver_data (step s initial_state).2) <$> SURVEYS).
Proof.
  revert st. induction SURVEYS as [|s rest IH]; intros st; simpl.
  - by rewrite app_nil_r.
  - rewrite IH. simpl. by rewrite app_assoc.
Qed.

Lemma join_option_list {A B} (f : A → option B) (l : list A) :
  mjoin ((λ x, option_list (f x)) <$> l) = omap f l.
Proof.
  induction l as [|x l IH]; [done|]. csimpl. rewrite IH.
  by destruct (f x).
Qed.

(** The full list after a run: the stored frames of the surveys, in the
    order of the list. *)
Lemma run_all_survey_data (SURVEYS : list string) :
  all_survey_data
    (run ALL_COLUMNS files read_sql_query mapper now extract_defined
       SURVEYS).2
  = omap stored SURVEYS.
Proof.
  unfold run. rewrite process_surveys_app. cbn [snd].
  rewrite foldl_state_app_all. cbn [initial_state all_survey_data app].
  rewrite <- join_option_list. f_equal. apply list_fmap_ext.
  intros _ s _. apply process_survey_frames.
Qed.

Lemma run_nps_driver_data (SURVEYS : list string) :
  nps_driver_data
    (run ALL_COLUMNS files read_sql_query mapper now extract_defined
       SURVEYS).2
  = if extract_defined then omap projection SURVEYS else [].
Proof.
  unfold run. rewrite process_surveys_app. cbn [snd].
  rewrite foldl_state_app_nps. cbn [initial_state nps_driver_data app].
  induction SURVEYS as [|s rest IH]; csimpl.
  - by destruct extract_defined.
  - rewrite IH, (proj2 (process_survey_frames s)).
    destruct extract_defined; [|done]. by destruct (projection s).
Qed.

(** Where a stored frame comes from. *)
Lemma stored_frame_Some (s : string) (df3 : DataFrame) :
  stored s = Some df3
  ↔ ∃ df survey_mappings,
      validated s = Some df ∧ (0 < len df)%nat
      ∧ get_survey_mappings mapper s = inr survey_mappings
      ∧ (if bool_decide (survey_mappings ≠ ∅)
         then transform_survey mapper (stamped now s df) s
         else inr (stamped now s df)) = inr df3
      ∧ ∃ diagnosis, validate_survey_config mapper s df3 = inr diagnosis.
Proof.
  unfold stored_frame. split.
  - destruct (validated s) as [df|]; [|done].
    destruct (0 <? len df)%nat eqn:Hpos; [|done].
    destruct (get_survey_mappings mapper s) as [e|m]; [done|].
    destruct (if bool_decide (m ≠ ∅) then _ else _) as [e|df3'] eqn:Hdf3;
      [done|].
    destruct (validate_survey_config mapper s df3') as [e|v] eqn:Hv; [done|].
    intros [= ->]. exists df, m. apply Nat.ltb_lt in Hpos. eauto 10.
  - intros (df & m & -> & Hpos & -> & Hdf3 & v & Hv).
    apply Nat.ltb_lt in Hpos. by rewrite Hpos, Hdf3, Hv.
Qed.

Lemma stored_frame_None (s : string) :
  validated_rows ALL_COLUMNS files read_sql_query s = 0%nat →
  stored s = None.
Proof.
  unfold validated_rows, stored_frame.
  destruct (validated s) as [df|]; simpl; [|done].
  by intros ->.
Qed.

Lemma len_stamped (s : string) (df : DataFrame) :
  len (stamped now s df) = len df.
Proof. done. Qed.

(** With a transformation that keeps the row count, a stored frame has the
    rows of the validated dataset. *)
Lemma len_stored_frame (s : string) (df3 : DataFrame) :
  (∀ df s' df', transform_survey mapper df s' = inr df' → len df' = len df) →
  stored s = Some df3 →
  len df3 = validated_rows ALL_COLUMNS files read_sql_query s.
Proof.
  intros Hkeeps (df & m & Hval & _ & _ & Hdf3 & _)%stored_frame_Some.
  unfold validated_rows. rewrite Hval. simpl.
  destruct (bool_decide (m ≠ ∅)).
  - by rewrite (Hkeeps _ _ _ Hdf3).
  - by injection Hdf3 as <-.
Qed.

(** The full combined frame of a run, whatever the mapper does and whichever
    way the cells are ordered. *)
Lemma run_combined_all_data (SURVEYS : list string) :
  let st :=
    (run ALL_COLUMNS files read_sql_query mapper now extract_defined
       SURVEYS).2 in
  all_survey_data st = omap stored SURVEYS
  ∧ (∀ s df3,
        stored s = Some df3
        ↔ ∃ df survey_mappings,
            validated s = Some df ∧ (0 < len df)%nat
            ∧ get_survey_mappings mapper s = inr survey_mappings
            ∧ (if bool_decide (survey_mappings ≠ ∅)
               then transform_survey mapper (stamped now s df) s
               else inr (stamped now s df)) = inr df3
            ∧ ∃ diagnosis,
                validate_survey_config mapper s df3 = inr diagnosis)
  ∧ (∀ s, validated_rows ALL_COLUMNS files read_sql_query s = 0%nat →
          stored s = None)
  ∧ (∀ combined,
        concat (all_survey_data st) = inr combined →
        len combined = sum_list (len <$> omap stored SURVEYS)
        ∧ (∀ k df3,
              omap stored SURVEYS !! k = Some df3 →
              appears_at (rows_before (omap stored SURVEYS) k) df3 combined
              ∧ (rows_before (omap stored SURVEYS) k + len df3
                 ≤ len combined)%nat)
        ∧ (∀ c, c ∈ columns combined
                ↔ ∃ df3, df3 ∈ omap stored SURVEYS ∧ c ∈ columns df3)
        ∧ ((∀ df s df',
               transform_survey mapper df s = inr df' → len df' = len df) →
           len combined
           = sum_list
               ((λ s, match stored s with
                      | Some _ =>
                          validated_rows ALL_COLUMNS files read_sql_query s
                      | None => 0%nat
                      end) <$> SURVEYS))).
Proof.
  intros st. subst st. rewrite run_all_survey_data.
  split; [done|]. split; [apply stored_frame_Some|].
  split; [apply stored_frame_None|].
  intros combined Hconcat.
  split; [by apply len_concat|].
  split; [intros k df3 Hk; by apply concat_appears|].
  split; [intros c; by apply elem_of_columns_concat|].
  intros Hkeeps. rewrite (len_concat _ _ Hconcat). clear Hconcat.
  induction SURVEYS as [|s rest IH]; [done|]. csimpl.
  destruct (stored s) as [df3|] eqn:Hs; csimpl; [|done].
  by rewrite IH, (len_stored_frame s df3 Hkeeps Hs).
Qed.

(** C6 (amended): when the dataset has at least one column typed [LTR] or
    [DRIVERS], [extract_ltr_and_drivers] returns its projection: the rows
    stay, and the columns are those of the dataset whose label is typed
    [STANDARD], [LTR] or [DRIVERS] or is a bookkeeping label, each with its
    values; otherwise, and so for a dataset whose columns are typed
    [STANDARD] or [METADATA] or are untyped, it returns nothing.  In a run
    with the function defined, the LTR/driver list holds the projections of
    the stored frames that have one, so a survey for which nothing is
    returned adds no rows to the combined LTR/driver frame, while its stored
    frame is in the full list and, when [pd.concat] returns the combined full
    frame, is found in it, rows and columns. *)
Theorem extract_ltr_and_drivers_spec :
  (∀ df s,
      has_ltr_or_drivers ALL_COLUMNS df →
      ∃ sub,
        extract_ltr_and_drivers df s ALL_COLUMNS = Some sub
        ∧ len sub = len df
        ∧ cols sub ≡ₚ filter (λ lc, projected ALL_COLUMNS lc.1) (cols df)
        ∧ (∀ c, c ∈ columns sub
                ↔ c ∈ columns df ∧ projected ALL_COLUMNS c))
  ∧ (∀ df s,
        ¬ has_ltr_or_drivers ALL_COLUMNS df →
        extract_ltr_and_drivers df s ALL_COLUMNS = None)
  ∧ (∀ df s,
        (∀ c, c ∈ columns df →
              ALL_COLUMNS !! c = Some "STANDARD"
              ∨ ALL_COLUMNS !! c = Some "METADATA"
              ∨ ALL_COLUMNS !! c = None) →
        extract_ltr_and_drivers df s ALL_COLUMNS = None)
  ∧ (∀ SURVEYS,
        extract_defined = true →
        let st :=
          (run ALL_COLUMNS files read_sql_query mapper now extract_defined
             SURVEYS).2 in
        all_survey_data st = omap stored SURVEYS
        ∧ nps_driver_data st = omap projection SURVEYS
        ∧ (∀ combined_ltr,
              concat (nps_driver_data st) = inr combined_ltr →
              len combined_ltr
              = sum_list
                  ((λ s, from_option len 0%nat (projection s)) <$> SURVEYS))
        ∧ (∀ s df3,
              s ∈ SURVEYS → stored s = Some df3 →
              extract_ltr_and_drivers df3 s ALL_COLUMNS = None →
              projection s = None
              ∧ ∃ k, all_survey_data st !! k = Some df3
                     ∧ ∀ combined,
                         concat (all_survey_data st) = inr combined →
                         appears_at (rows_before (all_survey_data st) k)
                           df3 combined
                         ∧ (rows_before (all_survey_data st) k + len df3
                            ≤ len combined)%nat)).
Proof.
  split; [|split; [|split]].
  - intros df s Hhas. eexists.
    split; [by apply extract_ltr_and_drivers_Some|].
    split; [done|]. split.
    + rewrite cols_select_columns by apply NoDup_elements.
      assert (∀ l : list (string * list Cell),
                (∀ lc, lc ∈ l → lc.1 ∈ columns df) →
                filter (λ lc, lc.1 ∈ list_of_set
                                       (projected_columns ALL_COLUMNS df)) l
                = filter (λ lc, projected ALL_COLUMNS lc.1) l) as Hfilter.
      { intros l. induction l as [|lc l IH]; intros Hl; [done|].
        assert (lc.1 ∈ list_of_set (projected_columns ALL_COLUMNS df)
                ↔ projected ALL_COLUMNS lc.1) as Hiff.
        { unfold list_of_set, projected_columns.
          rewrite elem_of_elements, elem_of_filter, elem_of_list_to_set.
          split; [tauto|]. intros ?. split; [done|]. apply Hl. left. }
        destruct (decide (projected ALL_COLUMNS lc.1)) as [Hp|Hp].
        - rewrite !filter_cons_True; [|done|by apply Hiff].
          f_equal. apply IH. intros ? ?. apply Hl. by right.
        - rewrite !filter_cons_False; [|done|by rewrite Hiff].
          apply IH. intros ? ?. apply Hl. by right. }
      rewrite Hfilter; [done|].
      intros lc Hlc. apply list_elem_of_fmap. by exists lc.
    + intros c. rewrite elem_of_columns_select_columns.
      unfold list_of_set, projected_columns.
      rewrite elem_of_elements, elem_of_filter, elem_of_list_to_set. tauto.
  - intros df s. apply extract_ltr_and_drivers_None.
  - intros df s Honly. apply extract_ltr_and_drivers_None.
    intros [c [Hc Ht]].
    destruct (Honly c Hc) as [Hs|[Hs|Hs]]; rewrite Hs in Ht; by destruct Ht.
  - intros SURVEYS Hdef st. subst st.
    rewrite run_all_survey_data, run_nps_driver_data, Hdef.
    split; [done|]. split; [done|]. split.
    + intros combined_ltr Hconcat. rewrite (len_concat _ _ Hconcat).
      clear Hconcat. induction SURVEYS as [|s rest IH]; [done|]. csimpl.
      destruct (projection s) as [sub|]; csimpl; by rewrite IH.
    + intros s df3 Hin Hs Hnone. split.
      { unfold stored_projection. by rewrite Hs. }
      assert (df3 ∈ omap stored SURVEYS) as Hdf3
        by (apply list_elem_of_omap; eauto).
      apply list_elem_of_lookup in Hdf3 as [k Hk]. exists k.
      split; [done|]. intros combined Hconcat. by apply concat_appears.
Qed.

End PipelineFacts.

Lemma per_survey_failure_isolation_witness :
  ∃ row,
    process_survey Demo.taxonomy Demo.files Demo.read_sql_query
      (simple_mapper Demo.config) 0 true "survey_4" initial_state
    = (inr tt, state_app initial_state (only_summary row))
    ∧ Survey_Name row = "survey_4"
    ∧ Processing_Status row
      = "Error: SQL file not found: ../sql_queries/survey_4/get_data.sql".
Proof.
  apply (proj1 (per_survey_failure_isolation Demo.taxonomy Demo.files
                  Demo.read_sql_query (simple_mapper Demo.config) 0 true)
           "survey_4" _ initial_state initial_state).
  vm_compute. reflexivity.
Defined.

Lemma validation_failure_skips_survey_witness :
  ∃ st',
    process_survey Demo.taxonomy Demo.files Demo.read_sql_query
      (simple_mapper Demo.config) 0 true "survey_2" initial_state
    = (inr tt, st')
    ∧ all_survey_data st' = []
    ∧ nps_driver_data st' = []
    ∧ processing_summary st' = [empty_summary 0 "survey_2" "Failed to load"]
    ∧ process_surveys Demo.taxonomy Demo.files Demo.read_sql_query
        (simple_mapper Demo.config) 0 true ["survey_2"; "survey_3"]
        initial_state
      = process_surveys Demo.taxonomy Demo.files Demo.read_sql_query
          (simple_mapper Demo.config) 0 true ["survey_3"] st'.
Proof.
  apply (validation_failure_skips_survey Demo.taxonomy Demo.files
           Demo.read_sql_query (simple_mapper Demo.config) 0 true
           "survey_2" "SELECT * FROM s2" "Weird_Column" Demo.s2
           ["survey_3"] initial_state).
  - by vm_compute.
  - by vm_compute.
  - simpl. do 2 right. left.
  - rewrite auto_added_columns_spec. intros [?|?]; discriminate.
  - by vm_compute.
Defined.

(** C2, as stated, fails: survey_2 has the column [Weird_Column], which the
    taxonomy does not know; its summary row carries the status
    [Failed to load], which is not an [Error: <detail>] status. *)
Lemma validation_failure_status_counterexample :
  let st :=
    (run Demo.taxonomy Demo.files Demo.read_sql_query
       (simple_mapper Demo.config) 0 true ["survey_2"]).2 in
  validate_columns Demo.s2 "survey_2" Demo.taxonomy
  = (false, {[ "Weird_Column" ]})
  ∧ Processing_Status <$> processing_summary st = ["Failed to load"]
  ∧ ¬ (∀ row, row ∈ processing_summary st →
              ∃ detail, Processing_Status row = "Error: " +:+ detail).
Proof.
  split; [by vm_compute|]. split; [by vm_compute|].
  intros Hall.
  destruct (Hall (empty_summary 0 "survey_2" "Failed to load")) as [d Hd].
  - vm_compute. left.
  - discriminate Hd.
Qed.

Lemma extract_ltr_and_drivers_spec_witness :
  let st :=
    (run Demo.taxonomy Demo.files Demo.read_sql_query
       (simple_mapper Demo.config) 0 true Demo.SURVEYS).2 in
  let df3 := stamped 0 "survey_3" Demo.s3 in
  stored_projection Demo.taxonomy Demo.files Demo.read_sql_query
    (simple_mapper Demo.config) 0 "survey_3" = None
  ∧ ∃ k, all_survey_data st !! k = Some df3
         ∧ ∀ combined,
             concat (all_survey_data st) = inr combined →
             appears_at (rows_before (all_survey_data st) k) df3 combined
             ∧ (rows_before (all_survey_data st) k + len df3
                ≤ len combined)%nat.
Proof.
  intros st df3.
  apply (proj2 (proj2 (proj2
           (proj2 (proj2 (proj2
              (extract_ltr_and_drivers_spec Demo.taxonomy Demo.files
                 Demo.read_sql_query (simple_mapper Demo.config) 0 true)))
              Demo.SURVEYS eq_refl))) "survey_3" df3).
  - do 2 right. left.
  - by vm_compute.
  - by vm_compute.
Defined.

(** ** The dictionary mapper *)

Section MapperFacts.

Import SimpleSurveyMapper.




Lemma transform_value_idempotent (d : list (string * Z)) (v : Cell) :
  transform_value d (transform_value d v) = transform_value d v.
Proof.
  destruct v as [|s|n|b|t]; simpl; try done.
  destruct (lookup_label d s) as [n|] eqn:Hl; simpl; [done|].
  by rewrite Hl.
Qed.

Lemma lookup_get_effective_mappings (m : t) (survey_name : string)
    (present_columns : list string) (include_defaults : bool) (col : string) :
  get_effective_mappings m survey_name present_columns include_defaults !! col
  = match get_survey_mappings m survey_name !! col with
    | Some name => Some name
    | None =>
        if include_defaults && bool_decide (col ∈ present_columns)
        then default_mappings m !! col
        else None
    end.
Proof.
  unfold get_effective_mappings.
  set (explicit := get_survey_mappings m survey_name).
  revert col.
  apply (map_fold_weak_ind
           (λ (r : gmap string string) (dm : gmap string string),
              ∀ col, r !! col
                     = match explicit !! col with
                       | Some name => Some name
                       | None =>
                           if include_defaults
                              && bool_decide (col ∈ present_columns)
                           then dm !! col else None
                       end)).
  - intros col. rewrite lookup_empty.
    destruct (explicit !! col); [done|]. by destruct (_ && _).
  - intros i x dm r Hfresh IH col.
    destruct (decide (col = i)) as [->|Hne].
    + rewrite lookup_insert_eq. specialize (IH i). rewrite Hfresh in IH.
      destruct include_defaults; simpl in *;
        [|rewrite IH; by destruct (explicit !! i)].
      destruct (bool_decide (i ∈ present_columns)); simpl in *;
        [|rewrite IH; by destruct (explicit !! i)].
      destruct (r !! i) as [name|] eqn:Hri.
      * rewrite bool_decide_eq_false_2 by done. rewrite Hri.
        by destruct (explicit !! i).
      * rewrite bool_decide_eq_true_2 by done. rewrite lookup_insert_eq.
        by destruct (explicit !! i).
    + rewrite lookup_insert_ne by done. rewrite <- IH.
      destruct (_ && _ && _); [by rewrite lookup_insert_ne|done].
Qed.

(** C7: the effective mapping keeps every explicit rule of the survey
    (explicit configuration wins over a default for the same column); a
    default rule for a column is the column's effective mapping, without an
    explicit one, if and only if the column is present in the data, the
    survey has no explicit rule for it, and [include_defaults] is true; a
    column with neither an explicit rule nor a default rule has none. *)
Theorem effective_mappings_spec (m : t) (survey_name : string)
    (present_columns : list string) (include_defaults : bool) :
  let explicit := get_survey_mappings m survey_name in
  let effective :=
    get_effective_mappings m survey_name present_columns include_defaults in
  (∀ col name, explicit !! col = Some name → effective !! col = Some name)
  ∧ (∀ col name,
        default_mappings m !! col = Some name →
        (explicit !! col = None ∧ effective !! col = Some name)
        ↔ (col ∈ present_columns ∧ explicit !! col = None
           ∧ include_defaults = true))
  ∧ (∀ col, explicit !! col = None → default_mappings m !! col = None →
            effective !! col = None).
Proof.
  intros explicit effective. subst effective.
  split; [|split].
  - intros col name He. rewrite lookup_get_effective_mappings.
    fold explicit. by rewrite He.
  - intros col name Hd. rewrite lookup_get_effective_mappings.
    fold explicit. split.
    + intros [He Heff]. rewrite He in Heff.
      destruct include_defaults; simpl in Heff; [|done].
      case_bool_decide; done.
    + intros [Hin [He ->]]. split; [done|]. rewrite He. simpl.
      by rewrite bool_decide_eq_true_2.
  - intros col He Hd. rewrite lookup_get_effective_mappings.
    fold explicit. rewrite He, Hd. by destruct (_ && _).
Qed.

Lemma lookup_dictionaries (m : t) (df : DataFrame) (survey_name : string)
    (include_defaults : bool) (col : string) :
  dictionaries m df survey_name include_defaults !! col
  = match get_effective_mappings m survey_name (columns df)
            include_defaults !! col with
    | Some name => if decide (col ∈ columns df) then mappings m !! name
                   else None
    | None => None
    end.
Proof.
  unfold dictionaries. rewrite lookup_omap, map_lookup_filter.
  destruct (get_effective_mappings _ _ _ _ !! col) as [name|]; [|done].
  simpl. destruct (decide (col ∈ columns df)).
  - by rewrite option_guard_True.
  - by rewrite option_guard_False.
Qed.

Lemma columns_transformed (dicts : gmap string (list (string * Z)))
    (l : list (string * list Cell)) :
  ((λ lc : string * list Cell,
      (lc.1, match dicts !! lc.1 with
             | Some d => transform_value d <$> lc.2
             | None => lc.2
             end)) <$> l).*1 = l.*1.
Proof. rewrite <- list_fmap_compose. by apply list_fmap_ext. Qed.

(** What [transform_survey] returns: the labels and the row count stay, and
    each column is mapped value by value with the dictionary of its label,
    or left as it is when its label has none. *)
Lemma transform_survey_inr (m : t) (df df' : DataFrame)
    (survey_name : string) (include_defaults : bool) :
  transform_survey m df survey_name include_defaults = inr df' →
  len df' = len df
  ∧ columns df' = columns df
  ∧ ∀ j col values,
      cols df !! j = Some (col, values) →
      ∃ values',
        cols df' !! j = Some (col, values')
        ∧ (∀ name d,
              get_effective_mappings m survey_name (columns df)
                include_defaults !! col = Some name →
              mappings m !! name = Some d →
              values' = transform_value d <$> values)
        ∧ (get_effective_mappings m survey_name (columns df)
             include_defaults !! col = None →
           values' = values).
Proof.
  unfold transform_survey. case_bool_decide as Hknown; [|done].
  intros [= <-]. split; [done|]. split; [apply columns_transformed|].
  intros j col values Hj. simpl. rewrite list_lookup_fmap, Hj. simpl.
  eexists. split; [reflexivity|].
  assert (col ∈ columns df) as Hcol.
  { apply list_elem_of_fmap. exists (col, values).
    split; [done|]. by eapply list_elem_of_lookup_2. }
  rewrite lookup_dictionaries. split.
  - intros name d -> Hd. destruct (decide (col ∈ columns df)); [|done].
    by rewrite Hd.
  - by intros ->.
Qed.


(** C9 (on the mapper as modelled): transforming a dataset and then
    transforming the result with the same survey configuration gives what
    one transformation gives, and raises when the first one raises; the
    per-value rule applied twice equals the rule applied once, also for
    [recommendation_10_scale], where the text "10" becomes the number 10 and
    the number 10 is left alone. *)
Theorem transform_survey_idempotent :
  (∀ m df survey_name include_defaults,
      exc_bind (transform_survey m df survey_name include_defaults)
        (λ df', transform_survey m df' survey_name include_defaults)
      = transform_survey m df survey_name include_defaults)
  ∧ (∀ d v, transform_value d (transform_value d v) = transform_value d v)
  ∧ transform_value recommendation_10_scale (Text "10") = Num 10
  ∧ transform_value recommendation_10_scale
      (transform_value recommendation_10_scale (Text "10")) = Num 10.
Proof.
  split; [|split; [apply transform_value_idempotent|by vm_compute]].
  intros m df survey_name include_defaults.
  unfold transform_survey at 1 3.
  case_bool_decide as Hknown; [|done]. simpl.
  unfold transform_survey, dictionaries, columns. simpl.
  rewrite columns_transformed.
  rewrite bool_decide_eq_true_2 by done.
  f_equal. f_equal. rewrite <- list_fmap_compose.
  apply list_fmap_ext. intros _ [col values] _. simpl.
  destruct (_ !! col) as [d|]; [|done].
  f_equal. rewrite <- list_fmap_compose. apply list_fmap_ext.
  intros _ v _. apply transform_value_idempotent.
Qed.

(** A transformation that returns keeps the row count. *)
Lemma len_transform_survey (m : t) (df df' : DataFrame)
    (survey_name : string) (include_defaults : bool) :
  transform_survey m df survey_name include_defaults = inr df' →
  len df' = len df.
Proof. by intros (? & _)%transform_survey_inr. Qed.

(** A configuration in which every referenced dictionary exists. *)
Lemma transform_survey_well_formed (m : t) (df : DataFrame)
    (survey_name : string) (include_defaults : bool) :
  well_formed m →
  ∃ df', transform_survey m df survey_name include_defaults = inr df'
         ∧ len df' = len df.
Proof.
  intros [Hexplicit Hdefault]. unfold transform_survey.
  rewrite bool_decide_eq_true_2.
  - eexists. split; [done|]. done.
  - intros col name Hcol.
    apply map_lookup_filter_Some in Hcol as [Heff _].
    rewrite lookup_get_effective_mappings in Heff.
    unfold get_survey_mappings in Heff.
    destruct (survey_columns m !! survey_name) as [cm|] eqn:Hcm; simpl in Heff.
    + destruct (cm !! col) as [name'|] eqn:Hname.
      * injection Heff as <-. by eapply (Hexplicit survey_name cm Hcm).
      * destruct (_ && _); [|done]. by eapply Hdefault.
    + rewrite lookup_empty in Heff.
      destruct (_ && _); [|done]. by eapply Hdefault.
Qed.

End MapperFacts.

(** ** The loop with the dictionary mapper *)

Lemma demo_well_formed : well_formed Demo.config.
Proof. apply (bool_decide_unpack _). by vm_compute. Qed.

Lemma simple_mapper_transform_returns (m : SimpleSurveyMapper.t)
    (df : DataFrame) (s : string) :
  well_formed m →
  transform_survey (simple_mapper m) df s = inr (returned_frame m df s).
Proof.
  intros Hwf. unfold returned_frame. simpl.
  by destruct (transform_survey_well_formed m df s true Hwf) as [df' [-> _]].
Qed.

Lemma len_returned_frame (m : SimpleSurveyMapper.t) (df : DataFrame)
    (s : string) :
  well_formed m → len (returned_frame m df s) = len df.
Proof.
  intros Hwf. unfold returned_frame.
  by destruct (transform_survey_well_formed m df s true Hwf) as [df' [-> ?]].
Qed.

Lemma effective_mappings_spec_witness :
  SimpleSurveyMapper.get_effective_mappings Demo.config "survey_3"
    ["ResponseID"; "NPS_Score"] true !! "NPS_Score"
  = Some "recommendation_10_scale"
  ∧ SimpleSurveyMapper.get_effective_mappings Demo.config "survey_7"
      ["ResponseID"; "NPS_Score"] true !! "NPS_Score"
    = Some "satisfaction_5_scale".
Proof.
  split.
  - apply (proj1 (proj2 (effective_mappings_spec Demo.config "survey_3"
                           ["ResponseID"; "NPS_Score"] true))
             "NPS_Score" "recommendation_10_scale").
    + by vm_compute.
    + split; [|split]; [|by vm_compute|done].
      right. left.
  - apply (proj1 (effective_mappings_spec Demo.config "survey_7"
                    ["ResponseID"; "NPS_Score"] true)
             "NPS_Score" "satisfaction_5_scale").
    by vm_compute.
Defined.


(** C5 (amended): whatever the mapper does and whichever way the cells are
    ordered, the frames of the full list are the stored frames of the
    surveys, in the order of the survey list; a survey has a stored frame
    only if its dataset loaded, passed validation and has a row and the
    three mapper calls returned, so a survey that failed validation, failed
    to load or returned no rows contributes nothing.  When [pd.concat]
    returns the combined frame, its row count is the sum of the row counts of
    the stored frames, each stored frame is found in it from the rows of the
    frames before it on, nothing sorted and nothing dropped, and its labels
    are the labels of the stored frames.  With a transformation that keeps
    the row count, as the dictionary mapper's does, that sum is the sum of
    the row counts of the validated datasets of the surveys that have a
    stored frame. *)
Theorem combined_all_surveys_rows (ALL_COLUMNS files : gmap string string)
    (read_sql_query : string → Exc DataFrame) (mapper : Mapper) (now : Z)
    (extract_defined : bool) (SURVEYS : list string) :
  let st :=
    (run ALL_COLUMNS files read_sql_query mapper now extract_defined
       SURVEYS).2 in
  let validated := validated_dataset ALL_COLUMNS files read_sql_query in
  let stored := stored_frame ALL_COLUMNS files read_sql_query mapper now in
  let validated_total :=
    sum_list
      ((λ s, match stored s with
             | Some _ => validated_rows ALL_COLUMNS files read_sql_query s
             | None => 0%nat
             end) <$> SURVEYS) in
  all_survey_data st = omap stored SURVEYS
  ∧ (∀ s df3,
        stored s = Some df3
        ↔ ∃ df survey_mappings,
            validated s = Some df ∧ (0 < len df)%nat
            ∧ get_survey_mappings mapper s = inr survey_mappings
            ∧ (if bool_decide (survey_mappings ≠ ∅)
               then transform_survey mapper (stamped now s df) s
               else inr (stamped now s df)) = inr df3
            ∧ ∃ diagnosis,
                validate_survey_config mapper s df3 = inr diagnosis)
  ∧ (∀ s, validated_rows ALL_COLUMNS files read_sql_query s = 0%nat →
          stored s = None)
  ∧ (∀ combined,
        concat (all_survey_data st) = inr combined →
        len combined = sum_list (len <$> omap stored SURVEYS)
        ∧ (∀ k df3,
              omap stored SURVEYS !! k = Some df3 →
              appears_at (rows_before (omap stored SURVEYS) k) df3 combined
              ∧ (rows_before (omap stored SURVEYS) k + len df3
                 ≤ len combined)%nat)
        ∧ (∀ c, c ∈ columns combined
                ↔ ∃ df3, df3 ∈ omap stored SURVEYS ∧ c ∈ columns df3)
        ∧ ((∀ df s df',
               transform_survey mapper df s = inr df' → len df' = len df) →
           len combined = validated_total)
        ∧ (∀ m, mapper = simple_mapper m → len combined = validated_total)).
Proof.
  intros st validated stored validated_total.
  destruct (run_combined_all_data ALL_COLUMNS files read_sql_query mapper
              now extract_defined SURVEYS) as (Hall & Hstored & Hnone & Hrows).
  split; [exact Hall|]. split; [exact Hstored|]. split; [exact Hnone|].
  intros combined Hconcat.
  destruct (Hrows combined Hconcat) as (Hlen & Happears & Hlabels & Hkeeps).
  split; [exact Hlen|]. split; [exact Happears|]. split; [exact Hlabels|].
  split; [exact Hkeeps|].
  intros m ->. apply Hkeeps. intros df s df' Htransform.
  exact (len_transform_survey m df df' s true Htransform).
Qed.

Lemma combined_all_surveys_rows_witness :
  let st :=
    (run Demo.taxonomy Demo.files Demo.read_sql_query
       (simple_mapper Demo.config) 0 true Demo.SURVEYS).2 in
  let combined :=
    {| nrows := 3;
       cols :=
         [("ResponseID", [Text "a"; Text "b"; Text "d"]);
          ("NPS_Score", [Num 10; Num 7; NaN]);
          ("Survey_Name",
           [Text "survey_1"; Text "survey_1"; Text "survey_3"]);
          ("Processed_Date", [Stamp 0; Stamp 0; Stamp 0]);
          ("Demographics_Age", [NaN; NaN; Text "25-34"])] |} in
  concat (all_survey_data st) = inr combined
  ∧ len combined
    = sum_list
        (len <$> omap (stored_frame Demo.taxonomy Demo.files
                         Demo.read_sql_query (simple_mapper Demo.config) 0)
                   Demo.SURVEYS).
Proof.
  intros st combined.
  assert (concat (all_survey_data st) = inr combined) as Hconcat
    by (by vm_compute).
  split; [exact Hconcat|].
  exact (proj1 (proj2 (proj2 (proj2
           (combined_all_surveys_rows Demo.taxonomy Demo.files
              Demo.read_sql_query (simple_mapper Demo.config) 0 true
              Demo.SURVEYS))) combined Hconcat)).
Defined.

(** C5, as stated, fails in two ways.  With a mapping that names a
    dictionary the store does not have, survey_1 loads two rows and passes
    validation, the transformation raises, and the survey adds no row to the
    full combined frame: the three validated rows of the run are one row
    there.  And with survey_5, whose query selects a column twice, both
    surveys pass validation and are stored, [pd.concat] refuses to combine
    them, and there is no full combined frame to count the rows of. *)
Lemma combined_all_surveys_rows_counterexample :
  (let st :=
     (run Demo.taxonomy Demo.files Demo.read_sql_query
        (simple_mapper misconfigured) 0 true Demo.SURVEYS).2 in
   validated_dataset Demo.taxonomy Demo.files Demo.read_sql_query "survey_1"
   = Some Demo.s1
   ∧ len Demo.s1 = 2%nat
   ∧ sum_list (validated_rows Demo.taxonomy Demo.files Demo.read_sql_query
                 <$> Demo.SURVEYS) = 3%nat
   ∧ ∃ combined,
       concat (all_survey_data st) = inr combined
       ∧ len combined = 1%nat
       ∧ len combined
         ≠ sum_list (validated_rows Demo.taxonomy Demo.files
                       Demo.read_sql_query <$> Demo.SURVEYS))
  ∧ (let st :=
       (run Demo.taxonomy Demo.files Demo.read_sql_query
          (simple_mapper Demo.config) 0 true ["survey_1"; "survey_5"]).2 in
     validated_rows Demo.taxonomy Demo.files Demo.read_sql_query
       <$> ["survey_1"; "survey_5"] = [2%nat; 1%nat]
     ∧ len <$> all_survey_data st = [2%nat; 1%nat]
     ∧ concat (all_survey_data st)
       = raise "Reindexing only valid with uniquely valued Index objects"
     ∧ ¬ ∃ combined, concat (all_survey_data st) = inr combined).
Proof.
  split.
  - intros st.
    split; [by vm_compute|]. split; [done|]. split; [by vm_compute|].
    destruct (concat (all_survey_data st)) as [e|combined] eqn:Hconcat;
      [by vm_compute in Hconcat|].
    exists combined. split; [done|].
    assert (len combined = 1%nat) as Hlen.
    { vm_compute in Hconcat. by injection Hconcat as <-. }
    split; [done|]. rewrite Hlen. by vm_compute.
  - intros st.
    assert (concat (all_survey_data st)
            = raise "Reindexing only valid with uniquely valued Index objects")
      as Hraise by (by vm_compute).
    split; [by vm_compute|]. split; [by vm_compute|]. split; [done|].
    intros [combined Hconcat]. rewrite Hraise in Hconcat. discriminate.
Qed.

(** ** Output generation *)

Lemma archive_path_unfold (stem TIMESTAMP : string) :
  startswith_sep stem = false → stem ≠ EmptyString →
  archive_path stem TIMESTAMP
  = ARCHIVE_DIR +:+ stem +:+ TIMESTAMP +:+ ".csv".
Proof.
  intros Hsep Hne. unfold archive_path, os_path_join. simpl.
  unfold path_join2.
  destruct stem as [|a stem]; [done|].
  change (String a stem +:+ TIMESTAMP +:+ ".csv")
    with (String a (stem +:+ TIMESTAMP +:+ ".csv")).
  simpl in Hsep |- *. by rewrite Hsep.
Qed.

Lemma archive_path_inj (stem T1 T2 : string) :
  startswith_sep stem = false → stem ≠ EmptyString →
  archive_path stem T1 = archive_path stem T2 → T1 = T2.
Proof.
  intros Hsep Hne. rewrite !archive_path_unfold by done. intros H.
  apply (inj (String.app ARCHIVE_DIR)) in H.
  apply (inj (String.app stem)) in H.
  by apply append_inj_r in H.
Qed.

Lemma apply_ops_untouched (ops : list FsOp) (fs : gmap string DataFrame)
    (p : string) :
  (∀ op, op ∈ ops → target op ≠ Some p) →
  (∀ op, op ∈ ops → ∀ src dst, op ≠ Rename src dst) →
  apply_ops fs ops !! p = fs !! p.
Proof.
  revert fs. induction ops as [|op ops IH]; intros fs Hp Hren; [done|].
  simpl. rewrite IH.
  - assert (target op ≠ Some p) as Hop by (apply Hp; left).
    destruct op as [d|path df|src dst|src dst]; simpl in *.
    + done.
    + apply lookup_insert_ne. congruence.
    + by destruct (Hren (Rename src dst) ltac:(left) src dst).
    + destruct (fs !! src); [|done]. apply lookup_insert_ne. congruence.
  - intros op' Hin. apply Hp. by right.
  - intros op' Hin. apply Hren. by right.
Qed.

Lemma write_combined_unfold (stem name TIMESTAMP : string)
    (frames : list DataFrame) :
  write_combined stem name TIMESTAMP frames
  = (combined_result frames, combined_writes stem name TIMESTAMP frames).
Proof.
  unfold write_combined, combined_result, combined_writes.
  destruct frames as [|df frames]; [done|].
  destruct (concat (df :: frames)) as [e|combined]; [done|]. simpl.
  by destruct (require_column "Survey_Name" combined) as [e|[]].
Qed.

(** The output cell, stretch by stretch: it stops at the first stretch that
    raises, with the files of the stretches before it written. *)
Lemma generate_outputs_unfold (TIMESTAMP : string) (st : PipelineState) :
  let summary_df := summary_frame (processing_summary st) in
  let start := [Makedirs RAG_OUTPUT_DIR; Makedirs ARCHIVE_DIR] in
  let ltr :=
    combined_writes "Combined_LTR_Drivers_" "combined_ltr_drivers.csv"
      TIMESTAMP (nps_driver_data st) in
  let all :=
    combined_writes "Combined_All_Surveys_" "combined_all_surveys.csv"
      TIMESTAMP (all_survey_data st) in
  let summary :=
    written "Processing_Summary_" "processing_summary.csv" TIMESTAMP
      summary_df in
  generate_outputs TIMESTAMP st
  = match combined_result (nps_driver_data st) with
    | inl e => (inl e, start ++ ltr)
    | inr _ =>
        match combined_result (all_survey_data st) with
        | inl e => (inl e, start ++ ltr ++ all)
        | inr _ =>
            match require_column "Processing_Status" summary_df with
            | inl e => (inl e, start ++ ltr ++ all ++ summary)
            | inr _ =>
                (inr tt,
                 start ++ ltr ++ all ++ summary ++ [Makedirs OLD_OUTPUT_DIR])
            end
        end
    end.
Proof.
  intros summary_df start ltr all summary.
  unfold generate_outputs. rewrite !write_combined_unfold.
  fold summary_df ltr all. cbn [in_sequence performs evaluates fst snd].
  destruct (combined_result (nps_driver_data st)) as [e|[]];
    [by rewrite ?app_nil_r|].
  destruct (combined_result (all_survey_data st)) as [e|[]];
    [by rewrite ?app_nil_r|].
  destruct (require_column "Processing_Status" summary_df) as [e|[]];
    cbn [fst snd]; by rewrite ?app_nil_r.
Qed.

(** What a block writes: nothing, or the two files of the combined frame. *)
Lemma combined_writes_cases (stem name TIMESTAMP : string)
    (frames : list DataFrame) :
  combined_writes stem name TIMESTAMP frames = []
  ∨ ∃ combined,
      frames ≠ [] ∧ concat frames = inr combined
      ∧ combined_writes stem name TIMESTAMP frames
        = written stem name TIMESTAMP combined.
Proof.
  unfold combined_writes. destruct frames as [|df frames]; [by left|].
  destruct (concat (df :: frames)) as [e|combined]; [by left|].
  right. by exists combined.
Qed.

(** The operations of the output cell, block by block: a block that was not
    reached, or that wrote nothing, is empty. *)
Lemma generate_outputs_blocks (TIMESTAMP : string) (st : PipelineState) :
  let summary_df := summary_frame (processing_summary st) in
  ∃ ltr all summary last,
    (generate_outputs TIMESTAMP st).2
    = [Makedirs RAG_OUTPUT_DIR; Makedirs ARCHIVE_DIR]
      ++ ltr ++ all ++ summary ++ last
    ∧ (ltr = []
       ∨ ∃ df, nps_driver_data st ≠ [] ∧ concat (nps_driver_data st) = inr df
               ∧ ltr = written "Combined_LTR_Drivers_"
                         "combined_ltr_drivers.csv" TIMESTAMP df)
    ∧ (all = []
       ∨ ∃ df, all_survey_data st ≠ [] ∧ concat (all_survey_data st) = inr df
               ∧ all = written "Combined_All_Surveys_"
                         "combined_all_surveys.csv" TIMESTAMP df)
    ∧ (summary = []
       ∨ summary = written "Processing_Summary_" "processing_summary.csv"
                     TIMESTAMP summary_df)
    ∧ (last = [] ∨ last = [Makedirs OLD_OUTPUT_DIR])
    ∧ (combined_result (nps_driver_data st) = inr tt →
       combined_result (all_survey_data st) = inr tt →
       ltr = combined_writes "Combined_LTR_Drivers_"
               "combined_ltr_drivers.csv" TIMESTAMP (nps_driver_data st)
       ∧ all = combined_writes "Combined_All_Surveys_"
                 "combined_all_surveys.csv" TIMESTAMP (all_survey_data st)
       ∧ summary = written "Processing_Summary_" "processing_summary.csv"
                     TIMESTAMP summary_df)
    ∧ ((generate_outputs TIMESTAMP st).1 = inr tt →
       combined_result (nps_driver_data st) = inr tt
       ∧ combined_result (all_survey_data st) = inr tt
       ∧ last = [Makedirs OLD_OUTPUT_DIR]).
Proof.
  intros summary_df. rewrite generate_outputs_unfold. fold summary_df.
  set (ltr := combined_writes "Combined_LTR_Drivers_"
                "combined_ltr_drivers.csv" TIMESTAMP (nps_driver_data st)).
  set (all := combined_writes "Combined_All_Surveys_"
                "combined_all_surveys.csv" TIMESTAMP (all_survey_data st)).
  pose proof (combined_writes_cases "Combined_LTR_Drivers_"
                "combined_ltr_drivers.csv" TIMESTAMP (nps_driver_data st))
    as Hltr.
  pose proof (combined_writes_cases "Combined_All_Surveys_"
                "combined_all_surveys.csv" TIMESTAMP (all_survey_data st))
    as Hall.
  fold ltr in Hltr. fold all in Hall.
  destruct (combined_result (nps_driver_data st)) as [e|[]].
  { exists ltr, [], [], []. cbn [fst snd]. rewrite !app_nil_r.
    repeat split; auto; done. }
  destruct (combined_result (all_survey_data st)) as [e|[]].
  { exists ltr, all, [], []. cbn [fst snd]. rewrite !app_nil_r.
    repeat split; auto; done. }
  destruct (require_column "Processing_Status" summary_df) as [e|[]].
  { exists ltr, all,
      (written "Processing_Summary_" "processing_summary.csv" TIMESTAMP
         summary_df), [].
    cbn [fst snd]. rewrite !app_nil_r. repeat split; auto; done. }
  exists ltr, all,
    (written "Processing_Summary_" "processing_summary.csv" TIMESTAMP
       summary_df), [Makedirs OLD_OUTPUT_DIR].
  cbn [fst snd]. repeat split; auto.
Qed.

Lemma generate_outputs_targets (TIMESTAMP : string) (st : PipelineState)
    (op : FsOp) :
  op ∈ (generate_outputs TIMESTAMP st).2 →
  target op = None
  ∨ (∃ df, op = ToCsv (archive_path "Combined_LTR_Drivers_" TIMESTAMP) df
           ∧ nps_driver_data st ≠ [] ∧ concat (nps_driver_data st) = inr df)
  ∨ (∃ df, op = ToCsv (current_path "combined_ltr_drivers.csv") df
           ∧ nps_driver_data st ≠ [] ∧ concat (nps_driver_data st) = inr df)
  ∨ (∃ df, op = ToCsv (archive_path "Combined_All_Surveys_" TIMESTAMP) df
           ∧ all_survey_data st ≠ [] ∧ concat (all_survey_data st) = inr df)
  ∨ (∃ df, op = ToCsv (current_path "combined_all_surveys.csv") df
           ∧ all_survey_data st ≠ [] ∧ concat (all_survey_data st) = inr df)
  ∨ op = ToCsv (archive_path "Processing_Summary_" TIMESTAMP)
           (summary_frame (processing_summary st))
  ∨ op = ToCsv (current_path "processing_summary.csv")
           (summary_frame (processing_summary st)).
Proof.
  intros Hin.
  destruct (generate_outputs_blocks TIMESTAMP st)
    as (ltr & all & summary & last & Hops & Hltr & Hall & Hsum & Hlast & _).
  rewrite Hops in Hin. clear Hops. rewrite !elem_of_app in Hin.
  destruct Hin as [Hin|[Hin|[Hin|[Hin|Hin]]]].
  - left. repeat (apply elem_of_cons in Hin as [->|Hin]; [done|]).
    by apply elem_of_nil in Hin.
  - destruct Hltr as [->|(d & Hne & Hd & ->)];
      [by apply elem_of_nil in Hin|].
    unfold written in Hin.
    apply elem_of_cons in Hin as [->|Hin]; [right; left; eauto|].
    apply elem_of_cons in Hin as [->|Hin]; [right; right; left; eauto|].
    by apply elem_of_nil in Hin.
  - destruct Hall as [->|(d & Hne & Hd & ->)];
      [by apply elem_of_nil in Hin|].
    unfold written in Hin.
    apply elem_of_cons in Hin as [->|Hin];
      [right; right; right; left; eauto|].
    apply elem_of_cons in Hin as [->|Hin];
      [right; right; right; right; left; eauto|].
    by apply elem_of_nil in Hin.
  - destruct Hsum as [->| ->]; [by apply elem_of_nil in Hin|].
    unfold written in Hin.
    apply elem_of_cons in Hin as [->|Hin]; [by do 5 right; left|].
    apply elem_of_cons in Hin as [->|Hin]; [by do 6 right|].
    by apply elem_of_nil in Hin.
  - destruct Hlast as [->| ->]; [by apply elem_of_nil in Hin|].
    left. apply elem_of_cons in Hin as [->|Hin]; [done|].
    by apply elem_of_nil in Hin.
Qed.

Lemma generate_outputs_direct (TIMESTAMP : string) (st : PipelineState)
    (op : FsOp) :
  op ∈ (generate_outputs TIMESTAMP st).2 →
  (∃ d, op = Makedirs d) ∨ (∃ path df, op = ToCsv path df).
Proof.
  intros Hin. pose proof (generate_outputs_targets _ _ _ Hin) as Ht.
  destruct Ht as [Hn|[(? & -> & _)|[(? & -> & _)|[(? & -> & _)
                 |[(? & -> & _)|[->| ->]]]]]]; eauto.
  destruct op; simpl in Hn; try done. eauto.
Qed.

Lemma generate_outputs_no_rename (TIMESTAMP : string) (st : PipelineState)
    (op : FsOp) (src dst : string) :
  op ∈ (generate_outputs TIMESTAMP st).2 → op ≠ Rename src dst.
Proof.
  intros Hin ->. apply generate_outputs_direct in Hin.
  destruct Hin as [[? ?]|[? [? ?]]]; discriminate.
Qed.

(** ** Summary rows and stored frames *)

Lemma has_type_true (all_columns_dict : gmap string string) (t : string)
    (df : DataFrame) :
  has_type all_columns_dict t df = true
  ↔ ∃ c, c ∈ columns df ∧ all_columns_dict !! c = Some t.
Proof.
  unfold has_type. rewrite existsb_exists. split.
  - intros [c [Hin Hc]]. exists c.
    split; [by apply list_elem_of_In|by apply bool_decide_eq_true in Hc].
  - intros [c [Hin Hc]]. exists c.
    split; [by apply list_elem_of_In|by apply bool_decide_eq_true].
Qed.

Lemma flags_of_projection (all_columns_dict : gmap string string)
    (df : DataFrame) (s : string) :
  has_type all_columns_dict "LTR" df || has_type all_columns_dict "DRIVERS" df
  = bool_decide (is_Some (extract_ltr_and_drivers df s all_columns_dict)).
Proof.
  unfold extract_ltr_and_drivers.
  destruct (bool_decide (_ ∨ _)) eqn:Hany;
    [apply bool_decide_eq_true in Hany|apply bool_decide_eq_false in Hany].
  - rewrite bool_decide_eq_true_2 by eauto.
    rewrite !length_pos_elem_of in Hany.
    destruct Hany as [[c Hc]|[c Hc]];
      apply elem_of_columns_of_type in Hc as [Ht Hc].
    + rewrite (proj2 (has_type_true all_columns_dict "LTR" df)); eauto.
    + rewrite (proj2 (has_type_true all_columns_dict "DRIVERS" df)); eauto.
      apply orb_true_r.
  - rewrite bool_decide_eq_false_2 by (by intros [? ?]).
    apply orb_false_iff. split; apply not_true_is_false;
      intros [c [Hc Ht]]%has_type_true; apply Hany;
      rewrite !length_pos_elem_of; [left|right]; exists c;
      by apply elem_of_columns_of_type.
Qed.

Section SummaryLemmas.

Variable ALL_COLUMNS : gmap string string.
Variable files : gmap string string.
Variable read_sql_query : string → Exc DataFrame.
Variable mapper : Mapper.
Variable now : Z.

Abbreviation effect :=
  (λ extract_defined s,
     (process_survey ALL_COLUMNS files read_sql_query mapper now
        extract_defined s initial_state).2).

(** What one iteration leaves, with [extract_ltr_and_drivers] defined: either
    a row that is not [Success], with zero counts and no flag, and nothing
    stored; or a [Success] row whose counts are those of the one frame it
    stored and whose flags say whether a projection was stored too. *)
Lemma process_survey_outcome (s : string) :
  (∃ row, effect true s = only_summary row
          ∧ Processing_Status row ≠ "Success"
          ∧ Records_Processed row = 0%nat
          ∧ Has_LTR_Data row || Has_Driver_Data row = false)
  ∨ (∃ row df,
        all_survey_data (effect true s) = [df]
        ∧ processing_summary (effect true s) = [row]
        ∧ Processing_Status row = "Success"
        ∧ Records_Processed row = len df
        ∧ Columns_Count row = length (columns df)
        ∧ nps_driver_data (effect true s)
          = option_list (extract_ltr_and_drivers df s ALL_COLUMNS)
        ∧ Has_LTR_Data row || Has_Driver_Data row
          = bool_decide (is_Some (extract_ltr_and_drivers df s ALL_COLUMNS))).
Proof.
  unfold process_survey, try_except, process_body, bind, call, ret,
    call_extract_ltr_and_drivers, append_all, append_nps, append_summary,
    only_summary, initial_state.
  destruct (execute_query_and_load_data _ _ _ s) as [e|[d|]];
    [left; eexists; split; [reflexivity|]; simpl; split; [discriminate|done]
    | |left; eexists; split; [reflexivity|]; simpl; split; [discriminate|done]].
  destruct (0 <? len d)%nat;
    [|left; eexists; split; [reflexivity|]; simpl; split; [discriminate|done]].
  generalize (set_column "Processed_Date" (Stamp now)
                (set_column "Survey_Name" (Text s) d)).
  intros df2. simpl.
  repeat (case_match; simplify_eq/=);
    first
      [ left; eexists; split; [reflexivity|]; simpl;
        split; [discriminate|done]
      | right; do 2 eexists; simpl;
        split; [reflexivity|]; split; [reflexivity|]; simpl;
        split; [done|]; split; [done|]; split; [done|];
        match goal with
        | H : extract_ltr_and_drivers ?d ?s ?a = _ |- _ =>
            rewrite (flags_of_projection a d s), H; done
        end ].
Qed.

Lemma summary_agrees_app (a b : PipelineState) :
  summary_agrees a → summary_agrees b → summary_agrees (state_app a b).
Proof.
  unfold summary_agrees, successful, flagged. simpl.
  intros (Ha1 & Ha2 & Ha3 & Ha4) (Hb1 & Hb2 & Hb3 & Hb4).
  rewrite !filter_app, !fmap_app, !sum_list_with_app, !length_app.
  split; [by rewrite Ha1, Hb1|]. split; [by rewrite Ha2, Hb2|].
  split; [by rewrite Ha3, Hb3|by rewrite Ha4, Hb4].
Qed.

Lemma summary_agrees_effect (s : string) : summary_agrees (effect true s).
Proof.
  unfold summary_agrees, successful, flagged.
  destruct (process_survey_outcome s)
    as [(row & Heff & Hst & Hrec & Hflag)
       |(row & df & Hall & Hsum & Hst & Hrec & Hcol & Hnps & Hflag)].
  - rewrite Heff. simpl.
    rewrite !filter_cons_False, !filter_nil by (simpl; congruence).
    simpl. by rewrite Hrec.
  - rewrite Hall, Hsum, Hnps. simpl.
    rewrite (filter_cons_True _ row) by done. rewrite filter_nil. simpl.
    rewrite Hrec, Hcol. split; [done|]. split; [done|]. split; [done|].
    destruct (extract_ltr_and_drivers df s ALL_COLUMNS) as [sub|] eqn:Hsub.
    + rewrite bool_decide_eq_true_2 in Hflag by eauto.
      by rewrite (filter_cons_True _ row), filter_nil.
    + rewrite bool_decide_eq_false_2 in Hflag by (by intros [? ?]).
      rewrite (filter_cons_False _ row), filter_nil; [done|].
      simpl. congruence.
Qed.

Lemma summary_agrees_foldl (SURVEYS : list string) (st : PipelineState) :
  summary_agrees st →
  summary_agrees
    (foldl (λ acc s, state_app acc (effect true s)) st SURVEYS).
Proof.
  revert st. induction SURVEYS as [|s rest IH]; intros st Hst; simpl; [done|].
  apply IH. apply summary_agrees_app; [done|apply summary_agrees_effect].
Qed.

Lemma run_summary_agrees (SURVEYS : list string) :
  summary_agrees
    (run ALL_COLUMNS files read_sql_query mapper now true SURVEYS).2.
Proof.
  unfold run. rewrite process_surveys_app. cbn [snd].
  by apply summary_agrees_foldl.
Qed.

End SummaryLemmas.

(** ** The output cell after a run *)




Lemma omap_nil {A B} (f : A → option B) (l : list A) :
  omap f l = [] ↔ ∀ x, x ∈ l → f x = None.
Proof.
  induction l as [|x l IH]; csimpl.
  - split; [|done]. intros _ x Hx. by apply elem_of_nil in Hx.
  - destruct (f x) as [y|] eqn:Hx.
    + split; [done|]. intros Hall. specialize (Hall x ltac:(left)).
      congruence.
    + rewrite IH. split.
      * intros Hall y [->|Hy]%elem_of_cons; auto.
      * intros Hall y Hy. apply Hall. by right.
Qed.

Section OutputFacts.

Variable ALL_COLUMNS : gmap string string.
Variable files : gmap string string.
Variable read_sql_query : string → Exc DataFrame.
Variable mapper : Mapper.
Variable now : Z.

(** A run that stored no frame stored no projection. *)
Lemma run_no_frame_no_projection (extract_defined : bool)
    (SURVEYS : list string) :
  let st :=
    (run ALL_COLUMNS files read_sql_query mapper now extract_defined
       SURVEYS).2 in
  all_survey_data st = [] → nps_driver_data st = [].
Proof.
  intros st. subst st. rewrite run_all_survey_data, run_nps_driver_data.
  destruct extract_defined; [|done].
  rewrite !omap_nil. intros Hall s Hs. unfold stored_projection.
  by rewrite (Hall s Hs).
Qed.





End OutputFacts.



(** ** A survey that fails after its frame was stored *)

Section FailedSurveys.

Variable ALL_COLUMNS : gmap string string.
Variable files : gmap string string.
Variable read_sql_query : string → Exc DataFrame.
Variable mapper : Mapper.
Variable now : Z.

(** Whatever the mapper does, only an iteration that ends in [Success] adds a
    projection to the LTR/driver list. *)
Lemma failed_survey_adds_no_projection (extract_defined : bool)
    (s : string) (row : Summary) :
  processing_summary
    (process_survey ALL_COLUMNS files read_sql_query mapper now
       extract_defined s initial_state).2 = [row] →
  Processing_Status row ≠ "Success" →
  nps_driver_data
    (process_survey ALL_COLUMNS files read_sql_query mapper now
       extract_defined s initial_state).2 = [].
Proof.
  unfold process_survey, try_except, process_body, bind, call, ret,
    append_all, append_nps, append_summary, initial_state; simpl.
  repeat (case_match; simplify_eq/=); intros; simplify_eq/=; done.
Qed.

(** When [extract_ltr_and_drivers] is defined before the loop runs, an
    iteration that does not end in [Success] adds no frame to the full list
    either. *)
Lemma failed_survey_adds_no_frame (s : string) (row : Summary) :
  processing_summary
    (process_survey ALL_COLUMNS files read_sql_query mapper now
       true s initial_state).2 = [row] →
  Processing_Status row ≠ "Success" →
  all_survey_data
    (process_survey ALL_COLUMNS files read_sql_query mapper now
       true s initial_state).2 = [].
Proof.
  unfold process_survey, try_except, process_body, bind, call, ret,
    call_extract_ltr_and_drivers,
    append_all, append_nps, append_summary, initial_state; simpl.
  repeat (case_match; simplify_eq/=); intros; simplify_eq/=; done.
Qed.

End FailedSurveys.

(** C10 at the notebook's own cell order: the loop cell runs before the cell
    that defines [extract_ltr_and_drivers].  survey_1 loads two valid rows;
    its frame is stored, the call then raises [NameError], the summary row
    says [Error: ...], and the output cell writes those two rows to the full
    combined file. *)
Lemma failed_survey_rows_in_full_output :
  let r :=
    run Demo.taxonomy Demo.files Demo.read_sql_query
      (simple_mapper Demo.config) 0 false ["survey_1"] in
  r.1 = inr tt
  ∧ Processing_Status <$> processing_summary r.2
    = ["Error: name 'extract_ltr_and_drivers' is not defined"]
  ∧ len <$> all_survey_data r.2 = [2%nat]
  ∧ nps_driver_data r.2 = []
  ∧ ∃ df, combined_all_data r.2 = Some (inr df)
          ∧ len df = 2%nat
          ∧ ToCsv (current_path "combined_all_surveys.csv") df
            ∈ (generate_outputs "20240101_120000" r.2).2.
Proof.
  intros r.
  split; [by vm_compute|]. split; [by vm_compute|].
  split; [by vm_compute|]. split; [by vm_compute|].
  destruct (concat (all_survey_data r.2)) as [e|df] eqn:Hconcat;
    [by vm_compute in Hconcat|].
  exists df.
  split; [unfold combined_all_data; rewrite Hconcat; by vm_compute|].
  vm_compute in Hconcat. injection Hconcat as <-.
  split; [done|]. vm_compute. do 3 right. left.
Qed.

(** C6, as stated, fails where the full combined output cannot be built:
    survey_5 has only a [STANDARD] column, selected twice, so
    [extract_ltr_and_drivers] returns nothing for it and its frame is in the
    full list; [pd.concat] refuses to combine that list; the output cell
    writes the LTR/driver files and ends there, and survey_5 is in no full
    combined output. *)
Lemma extract_ltr_and_drivers_spec_counterexample :
  let st :=
    (run Demo.taxonomy Demo.files Demo.read_sql_query
       (simple_mapper Demo.config) 0 true ["survey_1"; "survey_5"]).2 in
  let df3 := stamped 0 "survey_5" Demo.s5 in
  extract_ltr_and_drivers df3 "survey_5" Demo.taxonomy = None
  ∧ all_survey_data st !! 1%nat = Some df3
  ∧ Processing_Status <$> processing_summary st = ["Success"; "Success"]
  ∧ concat (all_survey_data st)
    = raise "Reindexing only valid with uniquely valued Index objects"
  ∧ (∀ T op, op ∈ (generate_outputs T st).2 →
             target op ≠ Some (current_path "combined_all_surveys.csv")
             ∧ target op
               ≠ Some (archive_path "Combined_All_Surveys_" T)).
Proof.
  intros st df3.
  assert (concat (all_survey_data st)
          = raise "Reindexing only valid with uniquely valued Index objects")
    as Hraise by (by vm_compute).
  split; [by vm_compute|]. split; [by vm_compute|]. split; [by vm_compute|].
  split; [done|].
  intros T op Hin. apply generate_outputs_targets in Hin.
  destruct Hin as [Hnone|[(d & -> & _)|[(d & -> & _)|[(d & _ & _ & Hd)
                  |[(d & _ & _ & Hd)|[->| ->]]]]]];
    try (rewrite Hraise in Hd; discriminate Hd);
    try (rewrite Hnone; split; discriminate);
    split; intros Heq; cbn [target] in Heq; apply (inj Some) in Heq;
    vm_compute in Heq; discriminate Heq.
Qed.

(** * Further properties of the notebook's functions *)

(** ** Query files *)

Lemma startswith_sep_append (s t : string) :
  startswith_sep s = true → startswith_sep (s +:+ t) = true.
Proof.
  destruct s as [|a s]; [done|].
  change (String a s +:+ t) with (String a (s +:+ t)). done.
Qed.

(** X1: the path [load_sql_query] looks up is a text: for a survey name that
    does not start with a separator, the text of [SQL_QUERIES_DIR], the name
    as it is, a separator unless the name ends with one, and the file name;
    nothing is normalised, so a name with [..] components names a file
    outside the directory.  For a name that starts with a separator,
    [os.path.join] drops the directory and the path starts with the name.
    The error for a missing file quotes the path, and a file that is there
    is read and stripped. *)
Theorem load_sql_query_path (files : gmap string string) (survey_name : string) :
  (∃ dir sep,
     let path := dir +:+ sep +:+ "get_data.sql" in
     os_path_join SQL_QUERIES_DIR [survey_name; "get_data.sql"] = path
     ∧ sep = (if bool_decide (dir = EmptyString) || endswith_sep dir
              then EmptyString else "/")
     ∧ (startswith_sep survey_name = false →
        dir = SQL_QUERIES_DIR +:+ survey_name)
     ∧ (startswith_sep survey_name = true →
        dir = survey_name ∧ startswith_sep path = true)
     ∧ (files !! path = None →
        load_sql_query files survey_name
        = raise ("SQL file not found: " +:+ path))
     ∧ (∀ text, files !! path = Some text →
                load_sql_query files survey_name = inr (strip text)))
  ∧ os_path_join SQL_QUERIES_DIR ["../../etc"; "get_data.sql"]
    = "../sql_queries/../../etc/get_data.sql".
Proof.
  split; [|by vm_compute].
  unfold load_sql_query, os_path_join. simpl.
  set (dir := path_join2 SQL_QUERIES_DIR survey_name).
  assert ((startswith_sep survey_name = false ∧
           dir = SQL_QUERIES_DIR +:+ survey_name)
          ∨ (startswith_sep survey_name = true ∧ dir = survey_name)) as Hdir.
  { subst dir. unfold path_join2.
    destruct (startswith_sep survey_name); [by right|by left]. }
  exists dir.
  exists (if bool_decide (dir = EmptyString) || endswith_sep dir
          then EmptyString else "/").
  assert (path_join2 dir "get_data.sql"
          = dir +:+ (if bool_decide (dir = EmptyString) || endswith_sep dir
                     then EmptyString else "/") +:+ "get_data.sql") as ->.
  { unfold path_join2. simpl. by destruct (_ || _). }
  split; [done|]. split; [done|].
  split; [|split; [|split]].
  - intros Hrel. destruct Hdir as [[_ ?]|[? _]]; [done|congruence].
  - intros Habs. destruct Hdir as [[? _]|[_ ->]]; [congruence|].
    split; [done|]. by apply startswith_sep_append.
  - by intros ->.
  - by intros text ->.
Qed.

Lemma load_sql_query_path_witness :
  load_sql_query Demo.files "survey_4"
  = raise "SQL file not found: ../sql_queries/survey_4/get_data.sql"
  ∧ load_sql_query Demo.files "survey_1" = inr "SELECT * FROM s1".
Proof.
  destruct (proj1 (load_sql_query_path Demo.files "survey_4"))
    as [dir4 [sep4 [Hp4 [_ [_ [_ [Hmiss _]]]]]]].
  destruct (proj1 (load_sql_query_path Demo.files "survey_1"))
    as [dir1 [sep1 [Hp1 [_ [_ [_ [_ Hread]]]]]]].
  simpl in *. split.
  - rewrite Hmiss; rewrite <- Hp4; by vm_compute.
  - rewrite (Hread "SELECT * FROM s1 "); [by vm_compute|].
    rewrite <- Hp1. by vm_compute.
Defined.

(** X2: a query that [load_sql_query] returns is the text of the file
    without the run of whitespace characters at its start and the run at its
    end, whitespace being what [str.strip()] removes, the no-break space and
    the other Unicode spaces included; so it neither begins nor ends with
    such a character, and stripping it again changes nothing. *)
Theorem load_sql_query_stripped (files : gmap string string)
    (survey_name query : string) :
  load_sql_query files survey_name = inr query →
  (∃ text pre post,
      files !! os_path_join SQL_QUERIES_DIR [survey_name; "get_data.sql"]
      = Some text
      ∧ spaces pre ∧ spaces post ∧ text = pre +:+ query +:+ post)
  ∧ no_leading_space query ∧ no_trailing_space query
  ∧ strip query = query.
Proof.
  unfold load_sql_query. destruct (files !! _) as [text|]; [|done].
  intros [= <-].
  destruct (strip_spec text) as [(pre & post & Hpre & Hpost & Htext)
                                   [Hlead Htrail]].
  split; [by exists text, pre, post|].
  split; [done|]. split; [done|]. by apply strip_fixed.
Qed.

Lemma load_sql_query_stripped_witness :
  let text := char [194; 160]%nat +:+ "SELECT 1" +:+ char [226; 128; 137]%nat
              +:+ char [10]%nat in
  strip "SELECT 1" = "SELECT 1"
  ∧ load_sql_query {[ "../sql_queries/survey_1/get_data.sql" := text ]}
      "survey_1" = inr "SELECT 1".
Proof.
  intros text. split; [|by vm_compute].
  apply (load_sql_query_stripped
           {[ "../sql_queries/survey_1/get_data.sql" := text ]}
           "survey_1" "SELECT 1").
  by vm_compute.
Defined.

(** ** The loader *)

Lemma labels_kept (f : string * list Cell → string * list Cell)
    (l : list (string * list Cell)) :
  (∀ lc, (f lc).1 = lc.1) → (f <$> l).*1 = l.*1.
Proof.
  intros Hf. rewrite <- list_fmap_compose. apply list_fmap_ext.
  intros _ lc _. apply Hf.
Qed.

Lemma columns_set_column (c : string) (v : Cell) (df : DataFrame) :
  columns (set_column c v df)
  = if bool_decide (c ∈ columns df) then columns df else columns df ++ [c].
Proof.
  unfold set_column, columns at 1. simpl. case_bool_decide.
  - apply labels_kept. intros lc. by case_bool_decide.
  - by rewrite fmap_app.
Qed.

Lemma elem_of_columns_set_column (c c' : string) (v : Cell) (df : DataFrame) :
  c' ∈ columns (set_column c v df) ↔ c' ∈ columns df ∨ c' = c.
Proof.
  rewrite columns_set_column. case_bool_decide as Hc.
  - split; [auto|]. by intros [?| ->].
  - rewrite elem_of_app, list_elem_of_singleton. done.
Qed.

(** After [df[c] = v] every column labelled [c] holds [v] in every row. *)
Lemma values_set_column (c : string) (v : Cell) (df : DataFrame)
    (values : list Cell) :
  (c, values) ∈ cols (set_column c v df) →
  values = replicate (len df) v.
Proof.
  unfold set_column. simpl. case_bool_decide as Hc.
  - intros [lc [Heq Hin]]%list_elem_of_fmap.
    case_bool_decide as Hlc; simplify_eq/=; done.
  - intros [Hin|Hin]%elem_of_app.
    + destruct Hc. apply list_elem_of_fmap. by exists (c, values).
    + apply list_elem_of_singleton in Hin. by simplify_eq.
Qed.

Lemma validate_columns_true (df : DataFrame) (s c : string)
    (all_columns_dict : gmap string string) :
  (validate_columns df s all_columns_dict).1 = true →
  c ∈ columns df →
  c ∈ dom all_columns_dict ∨ c ∈ auto_added_columns.
Proof.
  unfold validate_columns. case_bool_decide as Hne; [done|]. intros _ Hc.
  destruct (decide (c ∈ auto_added_columns)); [by right|].
  destruct (decide (c ∈ dom all_columns_dict)); [by left|].
  assert (c ∈ (∅ : gset string)) as Hin; [|by apply not_elem_of_empty in Hin].
  rewrite <- Hne. rewrite !elem_of_difference, elem_of_list_to_set. done.
Qed.

Section LoaderFacts.

Variable ALL_COLUMNS : gmap string string.
Variable files : gmap string string.
Variable read_sql_query : string → Exc DataFrame.

Abbreviation loaded :=
  (execute_query_and_load_data ALL_COLUMNS files read_sql_query).

(** X3: [execute_query_and_load_data] raises exactly when [load_sql_query]
    does, with the same exception: an error of the query itself is caught
    inside and turned into [None], and its text is lost. *)
Theorem execute_query_and_load_data_raises (s : string) :
  (∀ e, loaded s = inl e ↔ load_sql_query files s = inl e)
  ∧ (∀ query e, load_sql_query files s = inr query →
                read_sql_query query = inl e →
                loaded s = inr None).
Proof.
  unfold execute_query_and_load_data. split.
  - intros e. destruct (load_sql_query files s) as [e'|query]; simpl;
      [split; congruence|].
    destruct (read_sql_query query) as [e'|df]; [split; congruence|].
    destruct (validate_columns df s ALL_COLUMNS) as [[] ?]; simpl;
      split; congruence.
  - intros query e Hload Hread. rewrite Hload. simpl. by rewrite Hread.
Qed.

(** X4: a frame that [execute_query_and_load_data] returns is the result of the
    survey's query with the column [Survey_Name] set to the survey's name in
    every row; it has as many rows as the query returned, and each of its
    columns is a taxonomy column or a bookkeeping column. *)
Theorem execute_query_and_load_data_returns (s : string) (df' : DataFrame) :
  loaded s = inr (Some df') →
  ∃ query df,
    load_sql_query files s = inr query
    ∧ read_sql_query query = inr df
    ∧ df' = set_column "Survey_Name" (Text s) df
    ∧ len df' = len df
    ∧ "Survey_Name" ∈ columns df'
    ∧ (∀ values, ("Survey_Name", values) ∈ cols df' →
                 values = replicate (len df') (Text s))
    ∧ (∀ c, c ∈ columns df' →
            c ∈ dom ALL_COLUMNS ∨ c ∈ auto_added_columns).
Proof.
  unfold execute_query_and_load_data.
  destruct (load_sql_query files s) as [e|query] eqn:Hload; simpl; [done|].
  destruct (read_sql_query query) as [e|df] eqn:Hread; [done|].
  destruct (validate_columns df s ALL_COLUMNS) as [valid invalid] eqn:Hval.
  destruct valid; simpl; [|done]. intros [= <-].
  exists query, df. repeat split; try done.
  - apply elem_of_columns_set_column. by right.
  - intros values Hin. by apply values_set_column in Hin.
  - intros c [Hc| ->]%elem_of_columns_set_column.
    + apply (validate_columns_true df s c ALL_COLUMNS); [by rewrite Hval|done].
    + right. apply auto_added_columns_spec. by left.
Qed.

End LoaderFacts.

Lemma execute_query_and_load_data_raises_witness :
  execute_query_and_load_data Demo.taxonomy
    (<["../sql_queries/survey_9/get_data.sql" := "SELECT * FROM s9"]> Demo.files)
    Demo.read_sql_query "survey_9" = inr None.
Proof.
  apply (proj2 (execute_query_and_load_data_raises Demo.taxonomy
                  (<["../sql_queries/survey_9/get_data.sql"
                     := "SELECT * FROM s9"]> Demo.files)
                  Demo.read_sql_query "survey_9")
           "SELECT * FROM s9" "no such table").
  - by vm_compute.
  - by vm_compute.
Defined.

Lemma execute_query_and_load_data_returns_witness :
  ∃ query df,
    load_sql_query Demo.files "survey_1" = inr query
    ∧ Demo.read_sql_query query = inr df
    ∧ set_column "Survey_Name" (Text "survey_1") Demo.s1
      = set_column "Survey_Name" (Text "survey_1") df.
Proof.
  destruct (execute_query_and_load_data_returns Demo.taxonomy Demo.files
              Demo.read_sql_query "survey_1"
              (set_column "Survey_Name" (Text "survey_1") Demo.s1))
    as [query [df [Hload [Hread [Heq _]]]]].
  - by vm_compute.
  - by exists query, df.
Defined.

(** ** Status by cause *)

Section LoopFacts.

Variable ALL_COLUMNS : gmap string string.
Variable files : gmap string string.
Variable read_sql_query : string → Exc DataFrame.
Variable mapper : Mapper.
Variable now : Z.

Abbreviation loader :=
  (execute_query_and_load_data ALL_COLUMNS files read_sql_query).
Abbreviation iteration :=
  (process_survey ALL_COLUMNS files read_sql_query mapper now).

Lemma process_survey_only_summary (extract_defined : bool) (s : string)
    (st : PipelineState) (row : Summary) :
  iteration extract_defined s initial_state = (inr tt, only_summary row) →
  iteration extract_defined s st = (inr tt, state_app st (only_summary row)).
Proof. intros H. by rewrite process_survey_app, H. Qed.

(** X5: a survey whose query file is missing gets an [Error: <detail>] row whose
    detail is the text of the exception [load_sql_query] raised; nothing is
    stored for it. *)
Theorem missing_query_file_status (extract_defined : bool) (s e : string)
    (st : PipelineState) :
  load_sql_query files s = inl e →
  iteration extract_defined s st
  = (inr tt,
     state_app st (only_summary (empty_summary now s ("Error: " +:+ e)))).
Proof.
  intros Hload. apply process_survey_only_summary.
  unfold process_survey, try_except, process_body, bind, call,
    execute_query_and_load_data. by rewrite Hload.
Qed.

(** X6: a survey whose query raises gets the row [Failed to load]: the loader
    catches the exception, so its text does not reach the summary, and the
    row is the one a validation failure gets. *)
Theorem query_error_status (extract_defined : bool) (s query e : string)
    (st : PipelineState) :
  load_sql_query files s = inr query →
  read_sql_query query = inl e →
  iteration extract_defined s st
  = (inr tt, state_app st (only_summary (empty_summary now s "Failed to load"))).
Proof.
  intros Hload Hread. apply process_survey_only_summary.
  unfold process_survey, try_except, process_body, bind, call,
    execute_query_and_load_data. rewrite Hload. simpl. by rewrite Hread.
Qed.

(** X7: a survey whose query returns no rows, with valid columns, gets the row
    [No Data] and stores no frame, so its columns do not reach the combined
    outputs. *)
Theorem empty_result_status (extract_defined : bool) (s query : string)
    (df : DataFrame) (st : PipelineState) :
  load_sql_query files s = inr query →
  read_sql_query query = inr df →
  (validate_columns df s ALL_COLUMNS).1 = true →
  len df = 0%nat →
  iteration extract_defined s st
  = (inr tt, state_app st (only_summary (empty_summary now s "No Data"))).
Proof.
  intros Hload Hread Hvalid Hlen. apply process_survey_only_summary.
  unfold process_survey, try_except, process_body, bind, call.
  rewrite (execute_query_and_load_data_loaded ALL_COLUMNS files
             read_sql_query s query df Hload Hread), Hvalid.
  by rewrite len_set_column, Hlen.
Qed.

(** X8: when a method of the mapper raises on a loaded, non-empty survey, the
    survey gets an [Error: <detail>] row with the text of that exception and
    nothing is stored for it: the three mapper calls come before the frame
    is appended. *)
Theorem mapper_error_status (extract_defined : bool) (s e : string)
    (df0 : DataFrame) (st : PipelineState) :
  let df2 :=
    set_column "Processed_Date" (Stamp now)
      (set_column "Survey_Name" (Text s) df0) in
  loader s = inr (Some df0) →
  (0 < len df0)%nat →
  (get_survey_mappings mapper s = inl e
   ∨ (∃ m, get_survey_mappings mapper s = inr m ∧ m ≠ ∅
           ∧ transform_survey mapper df2 s = inl e)
   ∨ (∃ m df3, get_survey_mappings mapper s = inr m
               ∧ (if bool_decide (m ≠ ∅)
                  then transform_survey mapper df2 s else inr df2) = inr df3
               ∧ validate_survey_config mapper s df3 = inl e)) →
  iteration extract_defined s st
  = (inr tt,
     state_app st (only_summary (empty_summary now s ("Error: " +:+ e)))).
Proof.
  intros df2 Hload Hlen Hcause. apply process_survey_only_summary.
  unfold process_survey, try_except, process_body, bind, call, ret.
  rewrite Hload.
  destruct (0 <? len df0)%nat eqn:Hpos; [|apply Nat.ltb_ge in Hpos; lia].
  fold df2.
  destruct Hcause as [Hm|[[m [Hm [Hne Ht]]]|[m [df3 [Hm [Ht Hv]]]]]].
  - by rewrite Hm.
  - rewrite Hm. rewrite bool_decide_eq_true_2 by done. by rewrite Ht.
  - rewrite Hm. case_bool_decide.
    + rewrite Ht. by rewrite Hv.
    + injection Ht as <-. by rewrite Hv.
Qed.

End LoopFacts.

Lemma missing_query_file_status_witness :
  process_survey Demo.taxonomy Demo.files Demo.read_sql_query
    (simple_mapper Demo.config) 0 true "survey_4" initial_state
  = (inr tt,
     state_app initial_state
       (only_summary
          (empty_summary 0 "survey_4"
             ("Error: " +:+ "SQL file not found: ../sql_queries/survey_4/get_data.sql")))).
Proof.
  apply (missing_query_file_status Demo.taxonomy Demo.files
           Demo.read_sql_query (simple_mapper Demo.config) 0 true).
  by vm_compute.
Defined.

Lemma query_error_status_witness :
  process_survey Demo.taxonomy
    (<["../sql_queries/survey_9/get_data.sql" := "SELECT * FROM s9"]> Demo.files)
    Demo.read_sql_query (simple_mapper Demo.config) 0 true "survey_9"
    initial_state
  = (inr tt,
     state_app initial_state
       (only_summary (empty_summary 0 "survey_9" "Failed to load"))).
Proof.
  apply (query_error_status Demo.taxonomy
           (<["../sql_queries/survey_9/get_data.sql" := "SELECT * FROM s9"]>
              Demo.files)
           Demo.read_sql_query (simple_mapper Demo.config) 0 true
           "survey_9" "SELECT * FROM s9" "no such table").
  - by vm_compute.
  - by vm_compute.
Defined.

Lemma empty_result_status_witness :
  process_survey Demo.taxonomy Demo.files
    (λ _, inr {| nrows := 0; cols := [("ResponseID", [])] |})
    (simple_mapper Demo.config) 0 true "survey_1" initial_state
  = (inr tt,
     state_app initial_state
       (only_summary (empty_summary 0 "survey_1" "No Data"))).
Proof.
  apply (empty_result_status Demo.taxonomy Demo.files
           (λ _, inr {| nrows := 0; cols := [("ResponseID", [])] |})
           (simple_mapper Demo.config) 0 true
           "survey_1" "SELECT * FROM s1"
           {| nrows := 0; cols := [("ResponseID", [])] |}).
  - by vm_compute.
  - done.
  - by vm_compute.
  - done.
Defined.

Lemma mapper_error_status_witness :
  process_survey Demo.taxonomy Demo.files Demo.read_sql_query
    (simple_mapper misconfigured) 0 true "survey_1" initial_state
  = (inr tt,
     state_app initial_state
       (only_summary
          (empty_summary 0 "survey_1" ("Error: " +:+ "unknown dictionary")))).
Proof.
  apply (mapper_error_status Demo.taxonomy Demo.files Demo.read_sql_query
           (simple_mapper misconfigured) 0 true "survey_1"
           "unknown dictionary"
           (set_column "Survey_Name" (Text "survey_1") Demo.s1)).
  - by vm_compute.
  - vm_compute. lia.
  - right. left.
    exists {[ "NPS_Score" := "recommendation_10_scale" ]}.
    split; [by vm_compute|]. split; [|by vm_compute].
    intros H. apply (f_equal (λ m : gmap string string, m !! "NPS_Score")) in H.
    vm_compute in H. discriminate H.
Defined.

(** ** Summary rows and stored frames in a run *)

Section SummaryFacts.

Variable ALL_COLUMNS : gmap string string.
Variable files : gmap string string.
Variable read_sql_query : string → Exc DataFrame.
Variable mapper : Mapper.
Variable now : Z.

Abbreviation effect :=
  (λ extract_defined s,
     (process_survey ALL_COLUMNS files read_sql_query mapper now
        extract_defined s initial_state).2).

(** X9: with [extract_ltr_and_drivers] defined and any mapper: the stored frames
    are, in order, the frames of the rows with status [Success]; each such
    row records its frame's row and column counts; the records the summary
    adds up are the rows of the stored frames, and so the rows of the full
    combined frame when [pd.concat] returns it; and the stored projections
    are as many as the rows flagged with LTR or driver data. *)
Theorem summary_matches_stored_frames (SURVEYS : list string) :
  let st :=
    (run ALL_COLUMNS files read_sql_query mapper now true SURVEYS).2 in
  len <$> all_survey_data st
  = Records_Processed <$> successful (processing_summary st)
  ∧ (λ df, length (columns df)) <$> all_survey_data st
    = Columns_Count <$> successful (processing_summary st)
  ∧ sum_list (Records_Processed <$> processing_summary st)
    = sum_list (len <$> all_survey_data st)
  ∧ (∀ combined,
        concat (all_survey_data st) = inr combined →
        sum_list (Records_Processed <$> processing_summary st)
        = len combined)
  ∧ length (nps_driver_data st)
    = length (flagged (processing_summary st)).
Proof.
  intros st.
  destruct (run_summary_agrees ALL_COLUMNS files read_sql_query mapper now
              SURVEYS) as (H1 & H2 & H3 & H4).
  fold st in H1, H2, H3, H4.
  split; [done|]. split; [done|]. split; [done|]. split; [|done].
  intros combined Hconcat. by rewrite (len_concat _ _ Hconcat).
Qed.

(** X10: surveys are processed one by one and independently: running a list is
    running its first part and then its second part on what the first left,
    and what a run collects is what its parts collect, in order. *)
Theorem run_app (extract_defined : bool) (l1 l2 : list string) :
  (∀ st,
      process_surveys ALL_COLUMNS files read_sql_query mapper now
        extract_defined (l1 ++ l2) st
      = process_surveys ALL_COLUMNS files read_sql_query mapper now
          extract_defined l2
          (process_surveys ALL_COLUMNS files read_sql_query mapper now
             extract_defined l1 st).2)
  ∧ (run ALL_COLUMNS files read_sql_query mapper now extract_defined
       (l1 ++ l2)).2
    = state_app
        (run ALL_COLUMNS files read_sql_query mapper now extract_defined l1).2
        (run ALL_COLUMNS files read_sql_query mapper now extract_defined l2).2.
Proof.
  assert (∀ l st,
            foldl (λ acc s, state_app acc (effect extract_defined s)) st l
            = state_app st
                (foldl (λ acc s, state_app acc (effect extract_defined s))
                   initial_state l)) as Hfold.
  { intros l. induction l as [|s l IH] using rev_ind; intros st.
    - simpl. by rewrite state_app_initial_r.
    - rewrite !foldl_app. simpl. rewrite (IH st).
      by rewrite state_app_assoc. }
  split.
  - intros st. rewrite !process_surveys_app. cbn [snd].
    by rewrite foldl_app.
  - unfold run. rewrite !process_surveys_app. cbn [snd].
    rewrite foldl_app. apply Hfold.
Qed.

End SummaryFacts.

Lemma summary_matches_stored_frames_witness :
  let st :=
    (run Demo.taxonomy Demo.files Demo.read_sql_query
       (simple_mapper Demo.config) 0 true Demo.SURVEYS).2 in
  ∃ combined,
    concat (all_survey_data st) = inr combined
    ∧ sum_list (Records_Processed <$> processing_summary st) = len combined.
Proof.
  intros st.
  destruct (concat (all_survey_data st)) as [e|combined] eqn:Hconcat;
    [by vm_compute in Hconcat|].
  exists combined. split; [done|].
  by apply (proj1 (proj2 (proj2 (proj2
              (summary_matches_stored_frames Demo.taxonomy Demo.files
                 Demo.read_sql_query (simple_mapper Demo.config) 0
                 Demo.SURVEYS))))).
Defined.

(** ** Frames, projections and validation together *)

Lemma set_column_twice (c : string) (v v' : Cell) (df : DataFrame) :
  set_column c v' (set_column c v df) = set_column c v' df.
Proof.
  unfold set_column at 1. rewrite columns_set_column.
  unfold set_column. simpl. f_equal.
  destruct (decide (c ∈ columns df)) as [Hc|Hc].
  - rewrite !(bool_decide_eq_true_2 (c ∈ columns df)) by done.
    rewrite <- list_fmap_compose. apply list_fmap_ext.
    intros _ lc _. simpl. destruct (decide (lc.1 = c)) as [Hlc|Hlc].
    + by rewrite !(bool_decide_eq_true_2 (lc.1 = c)) by done.
    + by rewrite !(bool_decide_eq_false_2 (lc.1 = c)) by done.
  - rewrite !(bool_decide_eq_false_2 (c ∈ columns df)) by done.
    rewrite bool_decide_eq_true_2
      by (apply elem_of_app; right; left).
    rewrite fmap_app. simpl. rewrite bool_decide_eq_true_2 by done.
    f_equal. rewrite <- (list_fmap_id (cols df)) at 2.
    apply list_fmap_ext. intros i lc Hlc. simpl.
    rewrite bool_decide_eq_false_2; [done|].
    intros <-. apply Hc. apply list_elem_of_fmap. exists lc.
    split; [done|]. by eapply list_elem_of_lookup_2.
Qed.

(** X11: the loop assigns [Survey_Name] again to the frame the loader returned;
    that second assignment changes nothing. *)
Theorem second_survey_name_assignment (ALL_COLUMNS files : gmap string string)
    (read_sql_query : string → Exc DataFrame) (s : string) (df' : DataFrame) :
  execute_query_and_load_data ALL_COLUMNS files read_sql_query s
  = inr (Some df') →
  set_column "Survey_Name" (Text s) df' = df'.
Proof.
  unfold execute_query_and_load_data.
  destruct (load_sql_query files s) as [e|query]; simpl; [done|].
  destruct (read_sql_query query) as [e|df]; [done|].
  destruct (validate_columns df s ALL_COLUMNS) as [[] ?]; simpl; [|done].
  intros [= <-]. apply set_column_twice.
Qed.

Lemma second_survey_name_assignment_witness :
  set_column "Survey_Name" (Text "survey_1")
    (set_column "Survey_Name" (Text "survey_1") Demo.s1)
  = set_column "Survey_Name" (Text "survey_1") Demo.s1.
Proof.
  apply (second_survey_name_assignment Demo.taxonomy Demo.files
           Demo.read_sql_query "survey_1").
  by vm_compute.
Defined.

(** X12: setting a bookkeeping column never changes what [validate_columns]
    returns, so a frame that passed validation in the loader still passes
    after the loop has stamped it. *)
Theorem validate_columns_ignores_bookkeeping (c : string) (v : Cell)
    (df : DataFrame) (s : string) (all_columns_dict : gmap string string) :
  c ∈ auto_added_columns →
  validate_columns (set_column c v df) s all_columns_dict
  = validate_columns df s all_columns_dict.
Proof.
  intros Hc. unfold validate_columns.
  assert ((list_to_set (columns (set_column c v df)) : gset string)
            ∖ auto_added_columns
          = list_to_set (columns df) ∖ auto_added_columns) as ->; [|done].
  apply set_eq. intros x.
  rewrite !elem_of_difference, !elem_of_list_to_set,
    elem_of_columns_set_column.
  split; [|tauto]. intros [[?| ->] ?]; done.
Qed.

Lemma validate_columns_ignores_bookkeeping_witness :
  validate_columns (set_column "Processed_Date" (Stamp 0) Demo.s2)
    "survey_2" Demo.taxonomy
  = validate_columns Demo.s2 "survey_2" Demo.taxonomy.
Proof.
  apply validate_columns_ignores_bookkeeping.
  apply auto_added_columns_spec. by right.
Defined.

Lemma extract_ltr_and_drivers_Some_inv (df sub : DataFrame) (s : string)
    (all_columns_dict : gmap string string) :
  extract_ltr_and_drivers df s all_columns_dict = Some sub →
  has_ltr_or_drivers all_columns_dict df
  ∧ sub = select_columns
            (list_of_set (projected_columns all_columns_dict df)) df.
Proof.
  intros Hsub.
  assert (has_ltr_or_drivers all_columns_dict df) as Hhas.
  { unfold extract_ltr_and_drivers in Hsub.
    destruct (bool_decide (_ ∨ _)) eqn:Hany; [|done].
    apply bool_decide_eq_true in Hany. rewrite !length_pos_elem_of in Hany.
    destruct Hany as [[c Hc]|[c Hc]];
      apply elem_of_columns_of_type in Hc as [Ht Hc]; exists c; auto. }
  split; [done|].
  rewrite (extract_ltr_and_drivers_Some df s all_columns_dict Hhas) in Hsub.
  by injection Hsub.
Qed.

Lemma filter_label_select (labels : list string) (c : string)
    (l : list (string * list Cell)) :
  NoDup labels →
  filter (λ lc, lc.1 = c) (labels ≫= λ c', filter (λ lc, lc.1 = c') l)
  = if decide (c ∈ labels) then filter (λ lc, lc.1 = c) l else [].
Proof.
  induction labels as [|c' labels IH]; intros Hnd.
  - by rewrite decide_False by apply not_elem_of_nil.
  - apply NoDup_cons in Hnd as [Hc' Hnd]. rewrite bind_cons, filter_app.
    rewrite (IH Hnd). clear IH.
    assert (filter (λ lc, lc.1 = c) (filter (λ lc : string * list Cell,
                                               lc.1 = c') l)
            = if decide (c = c') then filter (λ lc, lc.1 = c) l else [])
      as ->.
    { induction l as [|lc l IHl]; [by destruct (decide (c = c'))|].
      destruct (decide (lc.1 = c')) as [Heq|Hne].
      - rewrite (filter_cons_True (λ lc, lc.1 = c')) by done.
        destruct (decide (lc.1 = c)) as [Heq'|Hne'].
        + rewrite !filter_cons_True by done. rewrite IHl.
          destruct (decide (c = c')); [done|congruence].
        + rewrite !filter_cons_False by done. by rewrite IHl.
      - rewrite (filter_cons_False (λ lc, lc.1 = c')) by done.
        rewrite IHl. destruct (decide (c = c')) as [->|?]; [|done].
        by rewrite filter_cons_False. }
    destruct (decide (c = c')) as [->|Hne].
    + rewrite decide_False by done. rewrite app_nil_r.
      by rewrite decide_True by left.
    + simpl. destruct (decide (c ∈ labels)).
      * by rewrite decide_True by (by right).
      * rewrite decide_False; [done|].
        rewrite elem_of_cons. tauto.
Qed.

Lemma select_columns_twice (labels : list string) (df : DataFrame) :
  NoDup labels →
  select_columns labels (select_columns labels df) = select_columns labels df.
Proof.
  intros Hnd. unfold select_columns. simpl. f_equal.
  assert (∀ k : list string,
            (∀ c, c ∈ k → c ∈ labels) →
            k ≫= (λ c, filter (λ lc, lc.1 = c)
                         (labels ≫= λ c', filter (λ lc, lc.1 = c') (cols df)))
            = k ≫= (λ c, filter (λ lc, lc.1 = c) (cols df))) as Hbind.
  { intros k. induction k as [|c k IH]; intros Hk; [done|].
    rewrite !bind_cons, IH by (intros ? ?; apply Hk; by right).
    f_equal. rewrite (filter_label_select labels c (cols df) Hnd).
    by rewrite decide_True by (apply Hk; left). }
  by apply Hbind.
Qed.

(** X13: a projection that [extract_ltr_and_drivers] returns passes column
    validation, and projecting it again returns the same frame. *)
Theorem projection_valid_and_stable (df sub : DataFrame) (s s' : string)
    (all_columns_dict : gmap string string) :
  extract_ltr_and_drivers df s all_columns_dict = Some sub →
  validate_columns sub s' all_columns_dict = (true, ∅)
  ∧ extract_ltr_and_drivers sub s' all_columns_dict = Some sub.
Proof.
  intros Hsub.
  apply extract_ltr_and_drivers_Some_inv in Hsub as [[c0 [Hc0 Ht0]] ->].
  set (labels := projected_columns all_columns_dict df).
  assert (∀ c, c ∈ labels
               ↔ ((all_columns_dict !! c = Some "STANDARD"
                   ∨ all_columns_dict !! c = Some "LTR"
                   ∨ all_columns_dict !! c = Some "DRIVERS")
                  ∨ c ∈ auto_added_columns) ∧ c ∈ columns df) as Hlabels.
  { intros c. subst labels. unfold projected_columns, projected.
    by rewrite elem_of_filter, elem_of_list_to_set. }
  assert (∀ c, c ∈ columns (select_columns (list_of_set labels) df)
               ↔ c ∈ labels) as Hsel.
  { intros c. rewrite elem_of_columns_select_columns.
    unfold list_of_set. rewrite elem_of_elements, Hlabels. tauto. }
  split.
  - unfold validate_columns. rewrite bool_decide_eq_false_2; [done|].
    intros Hne. apply Hne. apply set_eq. intros c.
    rewrite !elem_of_difference, elem_of_list_to_set.
    rewrite Hsel, Hlabels, elem_of_dom.
    split; [|set_solver].
    intros [[[[[Ht|[Ht|Ht]]|Hauto] _] Hna] Hnd]; try done;
      destruct Hnd; rewrite Ht; eauto.
  - assert (projected_columns all_columns_dict
              (select_columns (list_of_set labels) df) = labels) as Hsame.
    { apply set_eq. intros c. unfold projected_columns at 1, projected.
      rewrite elem_of_filter, elem_of_list_to_set, Hsel, Hlabels. tauto. }
    rewrite extract_ltr_and_drivers_Some.
    + rewrite Hsame. by rewrite select_columns_twice by apply NoDup_elements.
    + exists c0. split; [|done]. rewrite Hsel, Hlabels.
      destruct Ht0; auto.
Qed.

Lemma projection_valid_and_stable_witness :
  ∃ sub,
    extract_ltr_and_drivers Demo.s1 "survey_1" Demo.taxonomy = Some sub
    ∧ validate_columns sub "survey_1" Demo.taxonomy = (true, ∅)
    ∧ extract_ltr_and_drivers sub "survey_1" Demo.taxonomy = Some sub.
Proof.
  destruct (extract_ltr_and_drivers Demo.s1 "survey_1" Demo.taxonomy)
    as [sub|] eqn:Hsub; [|by vm_compute in Hsub].
  exists sub. split; [done|].
  by apply (projection_valid_and_stable Demo.s1 sub "survey_1" "survey_1").
Defined.

(** ** Output files across runs *)

(** X15: a later run with another timestamp leaves the three archive files of an
    earlier run as that run wrote them: the archive accumulates. *)
Theorem later_run_keeps_archive (T1 T2 stem : string)
    (st1 st2 : PipelineState) (fs : gmap string DataFrame) :
  T1 ≠ T2 →
  stem ∈ ["Combined_LTR_Drivers_"; "Combined_All_Surveys_";
          "Processing_Summary_"] →
  let fs1 := apply_ops fs (generate_outputs T1 st1).2 in
  apply_ops fs1 (generate_outputs T2 st2).2 !! archive_path stem T1
  = fs1 !! archive_path stem T1.
Proof.
  intros Hne Hstem fs1. apply apply_ops_untouched.
  - intros op Hin. apply generate_outputs_targets in Hin.
    repeat (apply elem_of_cons in Hstem as [->|Hstem]);
      [| | |by apply elem_of_nil in Hstem];
      destruct Hin
        as [Hnone|[[? [-> _]]|[[? [-> _]]|[[? [-> _]]|[[? [-> _]]
           |[->| ->]]]]]];
      first [ by rewrite Hnone | other_path archive_path_inj ].
  - intros op Hin src dst. by eapply generate_outputs_no_rename.
Qed.

Lemma later_run_keeps_archive_witness :
  let st :=
    (run Demo.taxonomy Demo.files Demo.read_sql_query
       (simple_mapper Demo.config) 0 true Demo.SURVEYS).2 in
  let fs1 := apply_ops ∅ (generate_outputs "20240101_120000" st).2 in
  apply_ops fs1 (generate_outputs "20240102_120000" initial_state).2
    !! archive_path "Combined_All_Surveys_" "20240101_120000"
  = fs1 !! archive_path "Combined_All_Surveys_" "20240101_120000".
Proof.
  intros st fs1.
  apply (later_run_keeps_archive "20240101_120000" "20240102_120000").
  - discriminate.
  - right. left.
Defined.

(** X16: an output cell that finds no stored frame leaves the current full
    combined file as it found it, and likewise the LTR/driver file when it
    finds no projection; with neither, it still writes a new current
    summary, so the combined files can be older than the summary beside
    them.  A run that stored no frame is such a case. *)
Theorem run_without_frames_leaves_current (TIMESTAMP : string)
    (st : PipelineState) (fs : gmap string DataFrame) :
  (all_survey_data st = [] →
   apply_ops fs (generate_outputs TIMESTAMP st).2
     !! current_path "combined_all_surveys.csv"
   = fs !! current_path "combined_all_surveys.csv")
  ∧ (nps_driver_data st = [] →
     apply_ops fs (generate_outputs TIMESTAMP st).2
       !! current_path "combined_ltr_drivers.csv"
     = fs !! current_path "combined_ltr_drivers.csv")
  ∧ (all_survey_data st = [] → nps_driver_data st = [] →
     apply_ops fs (generate_outputs TIMESTAMP st).2
       !! current_path "processing_summary.csv"
     = Some (summary_frame (processing_summary st)))
  ∧ (∀ ALL_COLUMNS files read_sql_query mapper now extract_defined SURVEYS,
        st = (run ALL_COLUMNS files read_sql_query mapper now
                extract_defined SURVEYS).2 →
        all_survey_data st = [] →
        apply_ops fs (generate_outputs TIMESTAMP st).2
          !! current_path "processing_summary.csv"
        = Some (summary_frame (processing_summary st))).
Proof.
  assert (all_survey_data st = [] → nps_driver_data st = [] →
          apply_ops fs (generate_outputs TIMESTAMP st).2
            !! current_path "processing_summary.csv"
          = Some (summary_frame (processing_summary st))) as Hsummary.
  { intros Hall Hnps. rewrite generate_outputs_unfold, Hall, Hnps.
    cbn [combined_result combined_writes].
    destruct (require_column _ _); cbn [snd]; read_back. }
  split; [|split; [|split]].
  - intros Hall. apply apply_ops_untouched.
    + intros op Hin. apply generate_outputs_targets in Hin.
      destruct Hin
        as [Hnone|[[? [-> _]]|[[? [-> _]]|[[? [-> [? _]]]|[[? [-> [? _]]]
           |[->| ->]]]]]];
        first [ by rewrite Hnone | done | other_path archive_path_inj ].
    + intros op Hin src dst. by eapply generate_outputs_no_rename.
  - intros Hnps. apply apply_ops_untouched.
    + intros op Hin. apply generate_outputs_targets in Hin.
      destruct Hin
        as [Hnone|[[? [-> [? _]]]|[[? [-> [? _]]]|[[? [-> _]]|[[? [-> _]]
           |[->| ->]]]]]];
        first [ by rewrite Hnone | done | other_path archive_path_inj ].
    + intros op Hin src dst. by eapply generate_outputs_no_rename.
  - exact Hsummary.
  - intros ALL_COLUMNS files read_sql_query mapper now extract_defined
      SURVEYS -> Hall.
    apply Hsummary; [done|]. by apply run_no_frame_no_projection.
Qed.

Lemma run_without_frames_leaves_current_witness :
  let old := {[ current_path "combined_all_surveys.csv" := Demo.s1 ]} in
  apply_ops old (generate_outputs "20240102_120000" initial_state).2
    !! current_path "combined_all_surveys.csv"
  = old !! current_path "combined_all_surveys.csv".
Proof.
  intros old.
  by apply (proj1 (run_without_frames_leaves_current "20240102_120000"
                     initial_state old)).
Defined.
